(** * Depth streamer backend: session and streaming-pipeline layer

    A shallow embedding of the Python backend under
    [depth_streamer/backend/app]: the control-command dispatcher
    ([control/messages.py], [control/handlers.py]), the frame processor's
    runtime parameters ([camera/frame_processing.py]), the Arducam camera
    wrapper ([camera/arducam_depth_camera.py]), the video track
    ([webrtc/video_track.py]), the application wiring ([main.py]), the
    signaling server ([webrtc/signaling_ws.py]) and the peer manager
    ([webrtc/peer_manager.py]).

    Coroutines are run to completion one at a time; a coroutine is a
    computation in a state-and-exception monad, the state being the objects
    it mutates. *)

From Stdlib Require Import ZArith QArith Ascii String.
From stdpp Require Import base option list strings pretty gmap.

Local Open Scope Z_scope.
Local Open Scope string_scope.

(** ** The fragment of the Python runtime the backend relies on *)

Module Py.

(** Values that travel through control payloads (decoded JSON scalars). *)
Inductive value :=
| VNone
| VInt (z : Z)
| VStr (s : string).

#[global] Instance value_eq_dec : EqDecision value.
Proof. solve_decision. Defined.

(** An instance of [Exception]: its class and [str(e)]. *)
Record exc := Exc { exc_class : string; exc_text : string }.

#[global] Instance exc_eq_dec : EqDecision exc.
Proof. solve_decision. Defined.

(** [type(v).__name__] *)
Definition type_name (v : value) : string :=
  match v with
  | VNone => "NoneType"
  | VInt _ => "int"
  | VStr _ => "str"
  end.

(** [str(v)], as used by f-string interpolation. *)
Definition str (v : value) : string :=
  match v with
  | VNone => "None"
  | VInt z => pretty z
  | VStr s => s
  end.

Definition AttributeError (cls attr : string) : exc :=
  Exc "AttributeError" ("'" +:+ cls +:+ "' object has no attribute '" +:+ attr +:+ "'").

Definition KeyError (key : string) : exc :=
  Exc "KeyError" ("'" +:+ key +:+ "'").

Definition ValueError (text : string) : exc := Exc "ValueError" text.

Definition RuntimeError (text : string) : exc := Exc "RuntimeError" text.

(** The error of an ordering comparison [a < b] between unrelated types. *)
Definition TypeError_lt (a b : string) : exc :=
  Exc "TypeError"
      ("'<' not supported between instances of '" +:+ a +:+ "' and '" +:+ b +:+ "'").

(** [max(lo, min(hi, v))] for integer literals [lo] and [hi]: [min]
    compares [v < hi] first, which raises for a value that is not a
    number. *)
Definition clamp (lo hi : Z) (v : value) : exc + Z :=
  match v with
  | VInt z => inr (Z.max lo (Z.min hi z))
  | _ => inl (TypeError_lt (type_name v) "int")
  end.

(** ASCII case mapping: [str.upper] and [str.lower] restricted to ASCII
    text (other bytes are kept). *)
Definition upper_ascii (c : ascii) : ascii :=
  let n := nat_of_ascii c in
  if ((97 <=? n)%nat && (n <=? 122)%nat)%bool then ascii_of_nat (n - 32) else c.

Definition lower_ascii (c : ascii) : ascii :=
  let n := nat_of_ascii c in
  if ((65 <=? n)%nat && (n <=? 90)%nat)%bool then ascii_of_nat (n + 32) else c.

Fixpoint upper (s : string) : string :=
  match s with
  | EmptyString => EmptyString
  | String c s' => String (upper_ascii c) (upper s')
  end.

Fixpoint lower (s : string) : string :=
  match s with
  | EmptyString => EmptyString
  | String c s' => String (lower_ascii c) (lower s')
  end.

(** [v.upper()] *)
Definition call_upper (v : value) : exc + string :=
  match v with
  | VStr s => inr (upper s)
  | _ => inl (AttributeError (type_name v) "upper")
  end.

(** *** Coroutines: state passing with exceptions

    A raised exception leaves the mutations made before it in place, so
    the state is returned on both outcomes. *)
Definition M (S A : Type) : Type := S → (exc + A) * S.

Definition ret {S A} (a : A) : M S A := λ s, (inr a, s).

Definition raise {S A} (e : exc) : M S A := λ s, (inl e, s).

Definition bind {S A B} (m : M S A) (k : A → M S B) : M S B :=
  λ s, match m s with
       | (inr a, s') => k a s'
       | (inl e, s') => (inl e, s')
       end.

(** [try: body except Exception as e: handler(e)] *)
Definition try_except {S A} (body : M S A) (handler : exc → M S A) : M S A :=
  λ s, match body s with
       | (inr a, s') => (inr a, s')
       | (inl e, s') => handler e s'
       end.

Definition get {S} : M S S := λ s, (inr s, s).

Definition put {S} (s : S) : M S unit := λ _, (inr tt, s).

Definition modify {S} (f : S → S) : M S unit := λ s, (inr tt, f s).

Definition map_res {A B} (f : A → B) (r : exc + A) : exc + B :=
  match r with
  | inr a => inr (f a)
  | inl e => inl e
  end.

(** Lift the result of a pure expression that may raise. *)
Definition lift {S A} (r : exc + A) : M S A := λ s, (r, s).

(** Run a computation on a component of the state. *)
Definition zoom {S T A} (proj : S → T) (upd : T → S → S) (m : M T A) : M S A :=
  λ s, let '(r, t') := m (proj s) in (r, upd t' s).

End Py.

Import Py.

Declare Scope py_scope.
Delimit Scope py_scope with py.
Notation "'let*' x ':=' m 'in' k" := (Py.bind m (λ x, k))
  (at level 10, x pattern, m at level 100, k at level 200) : py_scope.
Local Open Scope py_scope.

(** ** control/messages.py *)

Module Messages.

(** The command dataclasses.  The field annotations ([int], [str]) are
    not enforced by Python, so a field holds whatever the payload
    carried.  [OtherObject] stands for any object that is an instance of
    none of the four classes; it carries its class name. *)
Inductive ControlCommand :=
| SetRangeCommand (max_distance : value)
| SetConfidenceCommand (threshold : value)
| SetColormapCommand (colormap : value)
| SetFpsLimitCommand (fps : value)
| OtherObject (class_name : string).

(** What [data['payload']] can be.  [from_dict] stores it unchecked
    (the [dict] annotation is not enforced), so it is either a
    dictionary or an object of some other class: a list, a string, a
    number, [None]. *)
Inductive Payload :=
| Dict (d : gmap string value)
| NotDict (class_name : string).

(** The entry a payload holds under a key; only a dictionary holds
    entries. *)
#[global] Instance payload_lookup : Lookup string value Payload :=
  λ key p, match p with
           | Dict d => d !! key
           | NotDict _ => None
           end.

(** [ControlMessage]: wire type and payload. *)
Record ControlMessage := mkControlMessage {
  msg_type : string;
  payload : Payload;
}.

Record ControlResponse := mkControlResponse {
  resp_type : string;
  command_type : string;
  message : string;
}.

#[global] Instance ControlResponse_eq_dec : EqDecision ControlResponse.
Proof. solve_decision. Defined.

(** The [TypeError] of subscripting an object that is not a mapping
    with a string (texts as CPython 3.11 words them). *)
Definition TypeError_getitem (class_name : string) : exc :=
  Exc "TypeError"
    (if decide (class_name = "list") then
       "list indices must be integers or slices, not str"
     else if decide (class_name = "str") then
       "string indices must be integers, not 'str'"
     else "'" +:+ class_name +:+ "' object is not subscriptable").

(** [payload[key]] *)
Definition getitem (p : Payload) (key : string) : exc + value :=
  match p with
  | Dict d =>
      match d !! key with
      | Some v => inr v
      | None => inl (KeyError key)
      end
  | NotDict class_name => inl (TypeError_getitem class_name)
  end.

Definition to_command (self : ControlMessage) : exc + ControlCommand :=
  if decide (msg_type self = "set_range") then
    map_res SetRangeCommand (getitem (payload self) "max_distance")
  else if decide (msg_type self = "set_confidence_threshold") then
    map_res SetConfidenceCommand (getitem (payload self) "threshold")
  else if decide (msg_type self = "set_colormap") then
    map_res SetColormapCommand (getitem (payload self) "colormap")
  else if decide (msg_type self = "set_fps_limit") then
    map_res SetFpsLimitCommand (getitem (payload self) "fps")
  else
    inl (ValueError ("Unknown command type: " +:+ msg_type self)).

(** [type(command).__name__] *)
Definition class_name_of (command : ControlCommand) : string :=
  match command with
  | SetRangeCommand _ => "SetRangeCommand"
  | SetConfidenceCommand _ => "SetConfidenceCommand"
  | SetColormapCommand _ => "SetColormapCommand"
  | SetFpsLimitCommand _ => "SetFpsLimitCommand"
  | OtherObject n => n
  end.

(** The wire type string of each command class, as [to_command] maps
    them. *)
Definition wire_type (command : ControlCommand) : option string :=
  match command with
  | SetRangeCommand _ => Some "set_range"
  | SetConfidenceCommand _ => Some "set_confidence_threshold"
  | SetColormapCommand _ => Some "set_colormap"
  | SetFpsLimitCommand _ => Some "set_fps_limit"
  | OtherObject _ => None
  end.

End Messages.

Import Messages.

(** ** control/handlers.py *)

Module Handlers.

(** The two controller protocols.  A method of an object that does not
    define it is a computation that raises [AttributeError]. *)
Record ICameraController (S : Type) := {
  set_range : value → M S unit;
  set_confidence_threshold : value → M S unit;
  set_colormap : value → M S unit;
}.

Record IStreamController (S : Type) := {
  set_fps_limit : value → M S unit;
}.

Arguments set_range {S}.
Arguments set_confidence_threshold {S}.
Arguments set_colormap {S}.
Arguments set_fps_limit {S}.

Record ControlHandler (S : Type) := mkControlHandler {
  camera_controller : ICameraController S;
  stream_controller : IStreamController S;
}.

Arguments camera_controller {S}.
Arguments stream_controller {S}.

Section HandleCommand.
Context {S : Type}.
Variable self : ControlHandler S.

(** The body of the [try] block. *)
Definition apply_command (command : ControlCommand) : M S ControlResponse :=
  match command with
  | SetRangeCommand max_distance =>
      let* _ := set_range (camera_controller self) max_distance in
      ret (mkControlResponse "ack" "set_range"
             ("Range set to " +:+ str max_distance))
  | SetConfidenceCommand threshold =>
      let* _ := set_confidence_threshold (camera_controller self) threshold in
      ret (mkControlResponse "ack" "set_confidence_threshold"
             ("Confidence threshold set to " +:+ str threshold))
  | SetColormapCommand colormap =>
      let* _ := set_colormap (camera_controller self) colormap in
      ret (mkControlResponse "ack" "set_colormap"
             ("Colormap set to " +:+ str colormap))
  | SetFpsLimitCommand fps =>
      let* _ := set_fps_limit (stream_controller self) fps in
      ret (mkControlResponse "ack" "set_fps_limit"
             ("FPS limit set to " +:+ str fps))
  | OtherObject _ =>
      ret (mkControlResponse "error" "unknown" "Unknown command type")
  end.

Definition handle_command (command : ControlCommand) : M S ControlResponse :=
  try_except (apply_command command)
    (λ e, ret (mkControlResponse "error"
                 (lower (class_name_of command)) (exc_text e))).

End HandleCommand.

End Handlers.

Import Handlers.

(** ** Images

    A numpy array is its shape and its elements in row-major order.  The
    contents of sensor buffers and rendered images are opaque to this
    layer; only blank images are built here. *)

Module Numpy.

Record ndarray := mk_ndarray { nd_shape : list Z; nd_data : list Z }.

Definition size_of (shape : list Z) : Z := foldr Z.mul 1 shape.

Definition zeros (shape : list Z) : ndarray :=
  mk_ndarray shape (replicate (Z.to_nat (size_of shape)) 0).

(** [np.zeros(shape, dtype=np.uint8)] *)
Definition np_zeros (shape : list Z) : exc + ndarray :=
  if forallb (Z.leb 0) shape then inr (zeros shape)
  else inl (ValueError "negative dimensions are not allowed").

Definition all_zero (a : ndarray) : Prop := Forall (λ x, x = 0) (nd_data a).

Arguments zeros : simpl never.

End Numpy.

Import Numpy.

(** ** camera/frame_processing.py *)

Module FrameProcessing.

(** The OpenCV colormap selectors used by the processor. *)
Inductive Colormap :=
| COLORMAP_RAINBOW | COLORMAP_JET | COLORMAP_TURBO | COLORMAP_HOT
| COLORMAP_COOL | COLORMAP_HSV | COLORMAP_BONE.

#[global] Instance Colormap_eq_dec : EqDecision Colormap.
Proof. solve_decision. Defined.

Definition COLORMAPS : gmap string Colormap :=
  list_to_map
    [ ("RAINBOW", COLORMAP_RAINBOW); ("JET", COLORMAP_JET);
      ("TURBO", COLORMAP_TURBO); ("HOT", COLORMAP_HOT);
      ("COOL", COLORMAP_COOL); ("HSV", COLORMAP_HSV);
      ("BONE", COLORMAP_BONE) ].

Record DepthFrameProcessor := mkDepthFrameProcessor {
  max_distance : Z;
  confidence_threshold : Z;
  colormap : Colormap;
}.

#[global] Instance DepthFrameProcessor_eq_dec : EqDecision DepthFrameProcessor.
Proof. solve_decision. Defined.

(** [DepthFrameProcessor.__init__] *)
Definition init (max_distance : Z) : DepthFrameProcessor :=
  mkDepthFrameProcessor max_distance 30 COLORMAP_RAINBOW.

Definition set_confidence_threshold (threshold : value) : M DepthFrameProcessor unit :=
  let* t := lift (clamp 0 255 threshold) in
  modify (λ self, mkDepthFrameProcessor (max_distance self) t (colormap self)).

Definition set_colormap (name : value) : M DepthFrameProcessor unit :=
  let* key := lift (call_upper name) in
  match COLORMAPS !! key with
  | Some c =>
      modify (λ self,
        mkDepthFrameProcessor (max_distance self) (confidence_threshold self) c)
  | None => ret tt
  end.

(** [process_frame]: the numpy and OpenCV pipeline of the [try] block is
    the parameter [render]; an exception in it yields a black 640x480
    image. *)
Definition process_frame {F} (render : DepthFrameProcessor → F → exc + ndarray)
    (frame : F) : M DepthFrameProcessor ndarray :=
  try_except
    (let* self := get in lift (render self frame))
    (λ _, lift (np_zeros [480; 640; 3])).

End FrameProcessing.

(** ** camera/arducam_depth_camera.py *)

Module Camera.

(** What the vendor SDK hands back from [requestFrame]: depth data, or a
    frame of another kind. *)
Inductive SdkFrame :=
| DepthData (depth confidence : ndarray)
| RawData (raw : ndarray).

(** The vendor SDK object [ac.ArducamCamera], driven through the calls
    the wrapper makes; each may raise. *)
Class ArducamSdk (D : Type) := {
  requestFrame : Z → M D (option SdkFrame);
  releaseFrame : SdkFrame → M D unit;
  setControl_RANGE : value → M D unit;
  getControl_RANGE : M D value;
}.

Record ArducamCameraInfo := mkCameraInfo {
  width : Z;
  height : Z;
  device_type : string;
}.

Record ArducamDepthFrame := mkArducamDepthFrame {
  depth_data : ndarray;
  confidence_data : ndarray;
  _original_frame : SdkFrame;
}.

Record ArducamDepthCamera (D : Type) := mkCamera {
  _camera : D;
  _info : option ArducamCameraInfo;
  _is_open : bool;
  _is_started : bool;
}.

Arguments mkCamera {D}.
Arguments _camera {D}.
Arguments _info {D}.
Arguments _is_open {D}.
Arguments _is_started {D}.

Section Methods.
Context {D : Type} `{ArducamSdk D}.

(** A call on [self._camera]. *)
Definition sdk {A} (m : M D A) : M (ArducamDepthCamera D) A :=
  zoom _camera
    (λ d self, mkCamera d (_info self) (_is_open self) (_is_started self)) m.

Definition request_frame (timeout_ms : Z) : M (ArducamDepthCamera D) (option ArducamDepthFrame) :=
  let* self := get in
  if negb (_is_started self) then ret None
  else
    try_except
      (let* frame := sdk (requestFrame timeout_ms) in
       match frame with
       | Some (DepthData d c) =>
           ret (Some (mkArducamDepthFrame d c (DepthData d c)))
       | _ => ret None
       end)
      (λ _, ret None).

Definition release_frame (frame : ArducamDepthFrame) : M (ArducamDepthCamera D) unit :=
  try_except
    (sdk (releaseFrame (_original_frame frame)))
    (λ _, ret tt).

Definition set_range (max_distance : value) : M (ArducamDepthCamera D) unit :=
  let* self := get in
  if negb (_is_open self) then ret tt
  else
    try_except
      (let* _ := sdk (setControl_RANGE max_distance) in
       let* _ := sdk getControl_RANGE in
       ret tt)
      (λ _, ret tt).

Definition get_camera_info : M (ArducamDepthCamera D) ArducamCameraInfo :=
  let* self := get in
  match _info self with
  | None => raise (RuntimeError "Camera not started")
  | Some info => ret info
  end.

End Methods.

End Camera.

(** ** webrtc/video_track.py *)

Module VideoTrack.
Import Camera.

(** A frame of the media library, holding an image.
    [next_timestamp] belongs to the media library too and is taken to
    succeed on a live track. *)
Record VideoFrame := mkVideoFrame { vf_image : ndarray }.

(** Wall-clock times and intervals (Python floats) are taken as
    rationals. *)
Record DepthVideoStreamTrack := mkTrack {
  fps_limit : Z;
  frame_interval : Q;
  last_frame_time : Q;
  _running : bool;
  _current_frame : option ndarray;
  _timestamp : option Z;
}.

(** [DepthVideoStreamTrack.__init__] *)
Definition init (fps_limit : Z) : DepthVideoStreamTrack :=
  mkTrack fps_limit (1 / inject_Z fps_limit) 0 false None None.

Definition start : M DepthVideoStreamTrack unit :=
  modify (λ self, mkTrack (fps_limit self) (frame_interval self)
                    (last_frame_time self) true (_current_frame self)
                    (_timestamp self)).

Definition stop : M DepthVideoStreamTrack unit :=
  modify (λ self, mkTrack (fps_limit self) (frame_interval self)
                    (last_frame_time self) false (_current_frame self)
                    (_timestamp self)).

(** The media library's clock: 0 on the first call, then steps of 3000
    ticks of the 90 kHz video clock. *)
Definition next_timestamp : M DepthVideoStreamTrack Z :=
  let* self := get in
  let pts := match _timestamp self with
             | None => 0
             | Some t => t + 3000
             end in
  let* _ := put (mkTrack (fps_limit self) (frame_interval self)
                   (last_frame_time self) (_running self)
                   (_current_frame self) (Some pts)) in
  ret pts.

Definition set_fps_limit (fps : value) : M DepthVideoStreamTrack unit :=
  let* f := lift (clamp 5 30 fps) in
  modify (λ self, mkTrack f (1 / inject_Z f) (last_frame_time self)
                    (_running self) (_current_frame self) (_timestamp self)).

(** The objects one tick touches: the track, the camera it pulls from
    and the frame processor (any [IFrameProcessor], with state [P]). *)
Record World (D P : Type) := mkWorld {
  track : DepthVideoStreamTrack;
  camera : ArducamDepthCamera D;
  frame_processor : P;
}.

Arguments mkWorld {D P}.
Arguments track {D P}.
Arguments camera {D P}.
Arguments frame_processor {D P}.

Section Recv.
Context {D P : Type} `{ArducamSdk D}.
Variable process_frame : ArducamDepthFrame → M P ndarray.

(** The exception the media library raises when it is handed an array
    together with a pixel format it does not convert from. *)
Variable from_ndarray_rejects : ndarray → Z → exc.

(** [VideoFrame.from_ndarray(array, pts, time_base)].  The library's
    method is [from_ndarray(array, format='rgb24', channel_last=False)]:
    its second positional argument is the pixel format, a string naming
    one of the formats the library converts from.  Every call in [recv]
    passes the timestamp there, an integer, which names no format, so
    the library raises whatever the array is and builds no frame. *)
Definition from_ndarray (array : ndarray) (pts : Z) : exc + VideoFrame :=
  inl (from_ndarray_rejects array pts).

Definition on_track {A} (m : M DepthVideoStreamTrack A) : M (World D P) A :=
  zoom track (λ t w, mkWorld t (camera w) (frame_processor w)) m.

Definition on_camera {A} (m : M (ArducamDepthCamera D) A) : M (World D P) A :=
  zoom camera (λ c w, mkWorld (track w) c (frame_processor w)) m.

Definition on_processor {A} (m : M P A) : M (World D P) A :=
  zoom frame_processor (λ p w, mkWorld (track w) (camera w) p) m.

(** [self._current_frame = processed_frame; self.last_frame_time = current_time] *)
Definition cache_frame (processed_frame : ndarray) (current_time : Q)
  : M DepthVideoStreamTrack unit :=
  modify (λ self, mkTrack (fps_limit self) (frame_interval self) current_time
                    (_running self) (Some processed_frame) (_timestamp self)).

(** The [try] block entered once the camera delivered [frame]. *)
Definition render_and_cache (frame : ArducamDepthFrame) (current_time : Q)
  : M (World D P) VideoFrame :=
  let* processed_frame := on_processor (process_frame frame) in
  let* _ := on_track (cache_frame processed_frame current_time) in
  let* _ := on_camera (release_frame frame) in
  let* pts := on_track next_timestamp in
  lift (from_ndarray processed_frame pts).

(** The blank image of the last resort: the camera's resolution, or
    240x180 when asking for it fails. *)
Definition blank_frame_data : M (World D P) ndarray :=
  try_except
    (let* camera_info := on_camera get_camera_info in
     lift (np_zeros [height camera_info; width camera_info; 3]))
    (λ _, lift (np_zeros [180; 240; 3])).

(** The tail of [recv]: cached frame or black frame. *)
Definition fallback : M (World D P) VideoFrame :=
  let* pts := on_track next_timestamp in
  let* self := on_track get in
  let* frame_data :=
    match _current_frame self with
    | Some cached => ret cached
    | None => blank_frame_data
    end in
  lift (from_ndarray frame_data pts).

(** From the camera request on. *)
Definition produce (current_time : Q) : M (World D P) VideoFrame :=
  let* frame := on_camera (request_frame 2000) in
  let* produced :=
    match frame with
    | Some frame =>
        try_except
          (let* vf := render_and_cache frame current_time in ret (Some vf))
          (λ _, let* _ := on_camera (release_frame frame) in ret None)
    | None => ret None
    end in
  match produced with
  | Some vf => ret vf
  | None => fallback
  end.

(** Whether the tick, once it asks the camera, gets no depth frame
    (timeout, sensor error) or gets one that the processor fails on. *)
Definition sensor_or_render_fails (w : World D P) : bool :=
  match request_frame 2000 (camera w) with
  | (inr (Some frame), _) =>
      match process_frame frame (frame_processor w) with
      | (inl _, _) => true
      | (inr _, _) => false
      end
  | _ => true
  end.

(** The shape of the blank image for a camera: its resolution when
    the camera knows it (and the numbers can be an array's dimensions),
    otherwise 240x180. *)
Definition blank_shape (c : ArducamDepthCamera D) : list Z :=
  match _info c with
  | Some info =>
      if forallb (Z.leb 0) [height info; width info; 3]
      then [height info; width info; 3]
      else [180; 240; 3]
  | None => [180; 240; 3]
  end.

(** The image a degraded tick that started in world [w] is to show:
    the cached frame, or else a blank image of the camera's resolution
    or of 240x180. *)
Definition is_fallback_image (w : World D P) (img : ndarray) : Prop :=
  match _current_frame (track w) with
  | Some cached => img = cached
  | None => all_zero img ∧ nd_shape img = blank_shape (camera w)
  end.

(** [recv], at wall-clock time [current_time]. *)
Definition recv (current_time : Q) : M (World D P) VideoFrame :=
  let* self := on_track get in
  if negb (_running self) then
    let* pts := on_track next_timestamp in
    let* black := lift (np_zeros [480; 640; 3]) in
    lift (from_ndarray black pts)
  else if Qlt_le_dec (current_time - last_frame_time self) (frame_interval self) then
    match _current_frame self with
    | Some cached =>
        let* pts := on_track next_timestamp in
        lift (from_ndarray cached pts)
    | None =>
        (* asyncio.sleep for the rest of the interval, then go on *)
        produce current_time
    end
  else produce current_time.

End Recv.

End VideoTrack.

(** ** main.py: the objects of [DepthStreamerApp] and their wiring *)

Module App.
Import Camera.

(** The objects a control command can reach: [app.camera],
    [app.frame_processor] and [app.peer_manager.video_track]. *)
Record AppState (D : Type) := mkApp {
  app_camera : ArducamDepthCamera D;
  app_frame_processor : FrameProcessing.DepthFrameProcessor;
  app_video_track : VideoTrack.DepthVideoStreamTrack;
}.

Arguments mkApp {D}.
Arguments app_camera {D}.
Arguments app_frame_processor {D}.
Arguments app_video_track {D}.

Inductive Obj := TheCamera | TheFrameProcessor | TheVideoTrack.

Definition class_of (o : Obj) : string :=
  match o with
  | TheCamera => "ArducamDepthCamera"
  | TheFrameProcessor => "DepthFrameProcessor"
  | TheVideoTrack => "DepthVideoStreamTrack"
  end.

Section Dispatch.
Context {D : Type} `{ArducamSdk D}.

Definition on_app_camera {A} (m : M (ArducamDepthCamera D) A) : M (AppState D) A :=
  zoom app_camera (λ c a, mkApp c (app_frame_processor a) (app_video_track a)) m.

Definition on_app_processor {A} (m : M FrameProcessing.DepthFrameProcessor A)
  : M (AppState D) A :=
  zoom app_frame_processor (λ p a, mkApp (app_camera a) p (app_video_track a)) m.

Definition on_app_track {A} (m : M VideoTrack.DepthVideoStreamTrack A) : M (AppState D) A :=
  zoom app_video_track (λ t a, mkApp (app_camera a) (app_frame_processor a) t) m.

(** Attribute lookup of a controller method on an object, by the
    class of the object: which of the four protocol methods each
    class defines. *)
Definition getattr (o : Obj) (meth : string) : option (value → M (AppState D) unit) :=
  match o with
  | TheCamera =>
      if decide (meth = "set_range") then
        Some (λ v, on_app_camera (Camera.set_range v))
      else None
  | TheFrameProcessor =>
      if decide (meth = "set_confidence_threshold") then
        Some (λ v, on_app_processor (FrameProcessing.set_confidence_threshold v))
      else if decide (meth = "set_colormap") then
        Some (λ v, on_app_processor (FrameProcessing.set_colormap v))
      else None
  | TheVideoTrack =>
      if decide (meth = "set_fps_limit") then
        Some (λ v, on_app_track (VideoTrack.set_fps_limit v))
      else None
  end.

(** [await o.meth(arg)] *)
Definition call (o : Obj) (meth : string) (arg : value) : M (AppState D) unit :=
  match getattr o meth with
  | Some f => f arg
  | None => raise (AttributeError (class_of o) meth)
  end.

Definition as_camera_controller (o : Obj) : ICameraController (AppState D) :=
  {| Handlers.set_range := call o "set_range";
     Handlers.set_confidence_threshold := call o "set_confidence_threshold";
     Handlers.set_colormap := call o "set_colormap" |}.

Definition as_stream_controller (o : Obj) : IStreamController (AppState D) :=
  {| Handlers.set_fps_limit := call o "set_fps_limit" |}.

(** [ControlHandler(camera_controller=self.camera,
                    stream_controller=self.frame_processor)] *)
Definition control_handler : ControlHandler (AppState D) :=
  mkControlHandler _ (as_camera_controller TheCamera)
                     (as_stream_controller TheFrameProcessor).

(** [DepthStreamerApp.__init__] over an SDK object [d], with the
    default configuration; the track is the one [PeerManager.__init__]
    builds. *)
Definition init (d : D) (max_distance : Z) : AppState D :=
  mkApp (mkCamera d None false false)
        (FrameProcessing.init max_distance)
        (VideoTrack.init 30).

End Dispatch.

End App.

(** ** webrtc/signaling_ws.py *)

Module Signaling.

(** [clients] maps a client id to its websocket (the object's identity);
    [rooms] maps a room id to its set of member ids; [outbox] records,
    in order, each message handed to a client's websocket. *)
Record SignalingServer := mkServer {
  clients : gmap string Z;
  rooms : gmap string (gset string);
  outbox : list (string * gmap string value);
}.

Definition init : SignalingServer := mkServer ∅ ∅ [].

Definition set_rooms (r : gmap string (gset string)) (self : SignalingServer) :=
  mkServer (clients self) r (outbox self).

(** The clients [broadcast_to_room] creates a send task for. *)
Definition recipients (self : SignalingServer) (room_id : string)
    (exclude_client : option string) : list string :=
  match rooms self !! room_id with
  | None => []
  | Some members =>
      filter (λ client_id, Some client_id ≠ exclude_client
                           ∧ client_id ∈ dom (clients self))
             (elements members)
  end.

Definition broadcast_to_room (room_id : string) (message : gmap string value)
    (exclude_client : option string) (self : SignalingServer) : SignalingServer :=
  mkServer (clients self) (rooms self)
    (outbox self ++
       ((λ client_id, (client_id, message)) <$> recipients self room_id exclude_client))%list.

Definition peer_joined (client_id : string) : gmap string value :=
  {[ "type" := VStr "peer_joined"; "peer_id" := VStr client_id ]}.

Definition peer_left (client_id : string) : gmap string value :=
  {[ "type" := VStr "peer_left"; "peer_id" := VStr client_id ]}.

Definition join_room (client_id room_id : string) (self : SignalingServer)
  : SignalingServer :=
  let self1 :=
    match rooms self !! room_id with
    | None => set_rooms (<[room_id := ∅]> (rooms self)) self
    | Some _ => self
    end in
  let self2 := set_rooms (alter (λ m, m ∪ {[client_id]}) room_id (rooms self1)) self1 in
  broadcast_to_room room_id (peer_joined client_id) (Some client_id) self2.

Definition leave_room (client_id room_id : string) (self : SignalingServer)
  : SignalingServer :=
  match rooms self !! room_id with
  | None => self
  | Some _ =>
      let self1 :=
        set_rooms (alter (λ m, m ∖ {[client_id]}) room_id (rooms self)) self in
      let self2 :=
        if decide (rooms self1 !! room_id = Some ∅)
        then set_rooms (delete room_id (rooms self1)) self1
        else self1 in
      broadcast_to_room room_id (peer_left client_id) (Some client_id) self2
  end.

(** [handle_connection], on accept: register the client. *)
Definition register (client_id : string) (websocket : Z) (self : SignalingServer)
  : SignalingServer :=
  mkServer (<[client_id := websocket]> (clients self)) (rooms self) (outbox self).

(** [handle_connection], the [finally] block: unregister the client and
    discard it from every room. *)
Definition unregister (client_id : string) (self : SignalingServer) : SignalingServer :=
  if decide (client_id = "") then self
  else
    mkServer (delete client_id (clients self))
             ((λ room_clients, room_clients ∖ {[client_id]}) <$> rooms self)
             (outbox self).

(** The operations a connection performs on the server. *)
Inductive Op :=
| Connect (client_id : string) (websocket : Z)
| Join (client_id room_id : string)
| Leave (client_id room_id : string)
| Disconnect (client_id : string).

Definition step (self : SignalingServer) (op : Op) : SignalingServer :=
  match op with
  | Connect c ws => register c ws self
  | Join c r => join_room c r self
  | Leave c r => leave_room c r self
  | Disconnect c => unregister c self
  end.

Definition run (ops : list Op) (self : SignalingServer) : SignalingServer :=
  foldl step self ops.

(** Every registered room has a member. *)
Definition rooms_nonempty (self : SignalingServer) : Prop :=
  ∀ room_id members, rooms self !! room_id = Some members → members ≠ ∅.

End Signaling.

(** ** webrtc/peer_manager.py *)

Module PeerManager.

(** An [RTCPeerConnection] object as the manager drives it. *)
Record RTCPeerConnection := mkPC {
  pc_closed : bool;
  pc_senders : nat;
  remoteDescription : option (value * value);
  localDescription : option string;
  pc_data_channels : list string;
}.

(** [heap] holds every connection object created so far, addressed by
    the position it was created at; [peers] maps a peer id to the
    object it currently refers to. *)
Record PeerManager := mkManager {
  peers : gmap string nat;
  heap : list RTCPeerConnection;
}.

Definition init : PeerManager := mkManager ∅ [].

Definition update_pc (ref : nat) (f : RTCPeerConnection → RTCPeerConnection)
  : M PeerManager unit :=
  modify (λ self, mkManager (peers self) (alter f ref (heap self))).

Section Transport.
(** The transport engine's verdicts: whether it accepts a remote
    description of the given type and SDP (building the
    [RTCSessionDescription] included), the answer it generates for
    it, the SDP of the local description it holds once it has
    accepted that answer, and whether it opens a data channel of the
    given label.  Each of the four calls can raise. *)
Variable accept_remote : value → value → option exc.
Variable create_answer : value → exc + string.
Variable accept_local : string → exc + string.
Variable open_channel : string → option exc.

Definition create_peer_connection (peer_id : string) : M PeerManager nat :=
  let* self := get in
  let pc := length (heap self) in
  let* _ := put (mkManager (<[peer_id := pc]> (peers self))
                           (heap self ++ [mkPC false 0 None None []])%list) in
  let* _ := update_pc pc (λ o, mkPC (pc_closed o) (S (pc_senders o))
                                 (remoteDescription o) (localDescription o)
                                 (pc_data_channels o)) in
  ret pc.

Definition setRemoteDescription (pc : nat) (type sdp : value) : M PeerManager unit :=
  match accept_remote type sdp with
  | Some e => raise e
  | None =>
      update_pc pc (λ o, mkPC (pc_closed o) (pc_senders o) (Some (type, sdp))
                           (localDescription o) (pc_data_channels o))
  end.

Definition setLocalDescription (pc : nat) (answer : string) : M PeerManager unit :=
  match accept_local answer with
  | inl e => raise e
  | inr local =>
      update_pc pc (λ o, mkPC (pc_closed o) (pc_senders o) (remoteDescription o)
                           (Some local) (pc_data_channels o))
  end.

Definition createDataChannel (pc : nat) (label : string) : M PeerManager unit :=
  match open_channel label with
  | Some e => raise e
  | None =>
      update_pc pc (λ o, mkPC (pc_closed o) (pc_senders o) (remoteDescription o)
                           (localDescription o) (pc_data_channels o ++ [label])%list)
  end.

(** [pc.localDescription.sdp] *)
Definition localDescription_sdp (pc : nat) : M PeerManager string :=
  let* self := get in
  match heap self !! pc ≫= localDescription with
  | Some local => ret local
  | None => raise (AttributeError "NoneType" "sdp")
  end.

Definition close (pc : nat) : M PeerManager unit :=
  update_pc pc (λ o, mkPC true (pc_senders o) (remoteDescription o)
                       (localDescription o) (pc_data_channels o)).

(** [offer.get(key)] *)
Definition dict_get (d : gmap string value) (key : string) : value :=
  default VNone (d !! key).

(** The loop that gives unset transceiver directions the value
    [sendrecv] touches nothing the manager keeps and is left out. *)
Definition handle_offer (sender_id : string) (offer : gmap string value)
  : M PeerManager (gmap string value) :=
  let* pc := create_peer_connection sender_id in
  let type := dict_get offer "type" in
  let sdp := dict_get offer "sdp" in
  let* _ := setRemoteDescription pc type sdp in
  let* answer := lift (create_answer sdp) in
  let* _ := setLocalDescription pc answer in
  let* _ := createDataChannel pc "controls" in
  let* local := localDescription_sdp pc in
  ret {[ "type" := VStr "answer"; "sdp" := VStr local; "target" := VStr sender_id ]}.

Definition remove_peer (peer_id : string) : M PeerManager unit :=
  let* self := get in
  match peers self !! peer_id with
  | Some pc =>
      let* _ := close pc in
      modify (λ self, mkManager (delete peer_id (peers self)) (heap self))
  | None => ret tt
  end.

(** A connection object that is still open. *)
Definition is_open (self : PeerManager) (pc : nat) : Prop :=
  ∃ o, heap self !! pc = Some o ∧ pc_closed o = false.

End Transport.

End PeerManager.

(** ** A scripted SDK, for running the model on concrete inputs *)

Module Fixtures.
Import Camera.

(** The SDK object replays a list of [requestFrame] outcomes; an
    exhausted script times out. *)
Definition Script := list (exc + option SdkFrame).

#[global] Instance scripted_sdk : ArducamSdk Script := {|
  requestFrame _ := λ s, match s with
                         | [] => (inr None, [])
                         | r :: s' => (r, s')
                         end;
  releaseFrame _ := ret tt;
  setControl_RANGE _ := ret tt;
  getControl_RANGE := ret (VInt 4000);
|}.

Definition tiny (x : Z) : ndarray := mk_ndarray [1; 1; 3] [x; x; x].

(** Clients [a] and [b], both registered and both in room [r]. *)
Definition two_in_room : Signaling.SignalingServer :=
  Signaling.mkServer {[ "a" := 1; "b" := 2 ]} {[ "r" := {[ "a"; "b" ]} ]} [].

(** A transport engine that accepts every offer and answers with a
    fixed description. *)
Definition accept_all : value → value → option exc := λ _ _, None.

Definition fixed_answer : value → exc + string := λ _, inr "v=0".

(** It accepts every answer, its local description being the answer
    with one more line, and opens every data channel. *)
Definition gathered : string → exc + string :=
  λ answer, inr (answer +:+ " a=end-of-candidates").

Definition open_any : string → option exc := λ _, None.

(** A transport engine that refuses every answer as its local
    description. *)
Definition refuse_local : string → exc + string :=
  λ _, inl (ValueError "local description refused").

Definition an_offer : gmap string value :=
  {[ "type" := VStr "offer"; "sdp" := VStr "v=0" ]}.

(** A frame processor (stateless) that raises on every frame. *)
Definition failing_processor : ArducamDepthFrame → M unit ndarray :=
  λ _, raise (ValueError "render failed").

(** The media library's exception for a pixel format it does not
    know, here the timestamp. *)
Definition unknown_format : ndarray → Z → exc :=
  λ _ pts, ValueError ("Conversion from numpy array with format `" +:+ pretty pts
                       +:+ "` is not yet supported").

(** A running track with nothing cached, over a started 2x1 camera
    whose next frame is depth data. *)
Definition degraded_world : VideoTrack.World Script unit :=
  VideoTrack.mkWorld
    (VideoTrack.mkTrack 30 (1 / 30) 0 true None None)
    (mkCamera [inr (Some (DepthData (tiny 7) (tiny 9)))]
              (Some (mkCameraInfo 2 1 "VGA")) true true)
    tt.

(** A running track with a cached frame, over a camera that times out. *)
Definition stale_world : VideoTrack.World Script unit :=
  VideoTrack.mkWorld
    (VideoTrack.mkTrack 30 (1 / 30) 0 true (Some (tiny 5)) (Some 3000))
    (mkCamera [] (Some (mkCameraInfo 2 1 "VGA")) true true)
    tt.

End Fixtures.

(** ** control/messages.py: the response on the wire *)

Module Wire.

(** [ControlResponse.to_dict] *)
Definition to_dict (self : ControlResponse) : gmap string value :=
  {[ "type" := VStr (resp_type self);
     "command_type" := VStr (command_type self);
     "message" := VStr (message self) ]}.

End Wire.

(** ** camera/arducam_depth_camera.py: opening, starting, closing *)

Module Lifecycle.
Import Camera.

Inductive Connection := CSI | USB.

(** The SDK calls of the camera's life cycle; [sdk_open],
    [sdk_openWithFile] and [sdk_start] return the SDK's error code. *)
Class ArducamSdkLifecycle (D : Type) := {
  sdk_open : Connection → Z → M D Z;
  sdk_openWithFile : string → Z → M D Z;
  sdk_start : M D Z;
  sdk_stop : M D unit;
  sdk_close : M D unit;
  sdk_getCameraInfo : M D ArducamCameraInfo;
}.

(** The constructor arguments the wrapper keeps and never changes. *)
Record CameraArgs := mkCameraArgs {
  connection_type : string;
  device_index : Z;
  config_file : option string;
}.

(** [ArducamDepthCamera.__init__] over a new SDK object. *)
Definition new {D} (d : D) : ArducamDepthCamera D := mkCamera d None false false.

Section Methods.
Context {D : Type} `{ArducamSdk D} `{ArducamSdkLifecycle D}.
Variable args : CameraArgs.

Definition set_is_open (b : bool) : M (ArducamDepthCamera D) unit :=
  modify (λ self, mkCamera (_camera self) (_info self) b (_is_started self)).

Definition set_is_started (b : bool) : M (ArducamDepthCamera D) unit :=
  modify (λ self, mkCamera (_camera self) (_info self) (_is_open self) b).

Definition set_info (i : ArducamCameraInfo) : M (ArducamDepthCamera D) unit :=
  modify (λ self, mkCamera (_camera self) (Some i) (_is_open self) (_is_started self)).

Definition open : M (ArducamDepthCamera D) bool :=
  try_except
    (let* code :=
       match config_file args with
       | Some file =>
           if decide (file = "") then
             sdk (sdk_open (if decide (connection_type args = "CSI") then CSI else USB)
                           (device_index args))
           else sdk (sdk_openWithFile file (device_index args))
       | None =>
           sdk (sdk_open (if decide (connection_type args = "CSI") then CSI else USB)
                         (device_index args))
       end in
     if decide (code = 0) then
       let* _ := set_is_open true in ret true
     else ret false)
    (λ _, ret false).

Definition start : M (ArducamDepthCamera D) bool :=
  let* self := get in
  if negb (_is_open self) then ret false
  else
    try_except
      (let* code := sdk sdk_start in
       if decide (code = 0) then
         let* _ := set_is_started true in
         let* info := sdk sdk_getCameraInfo in
         let* _ := set_info info in
         ret true
       else ret false)
      (λ _, ret false).

Definition stop : M (ArducamDepthCamera D) unit :=
  let* self := get in
  if _is_started self then
    let* _ := sdk sdk_stop in
    set_is_started false
  else ret tt.

Definition close : M (ArducamDepthCamera D) unit :=
  let* self := get in
  let* _ := if _is_started self then stop else ret tt in
  let* self := get in
  if _is_open self then
    let* _ := sdk sdk_close in
    set_is_open false
  else ret tt.

(** One call on the camera object, by any of its users. *)
Inductive Call :=
| CallOpen | CallStart | CallStop | CallClose
| CallRequestFrame (timeout_ms : Z)
| CallReleaseFrame (frame : ArducamDepthFrame)
| CallSetRange (max_distance : value)
| CallGetCameraInfo.

(** The camera after the call, whether it returned or raised. *)
Definition after (self : ArducamDepthCamera D) (c : Call) : ArducamDepthCamera D :=
  match c with
  | CallOpen => snd (open self)
  | CallStart => snd (start self)
  | CallStop => snd (stop self)
  | CallClose => snd (close self)
  | CallRequestFrame t => snd (request_frame t self)
  | CallReleaseFrame f => snd (release_frame f self)
  | CallSetRange v => snd (set_range v self)
  | CallGetCameraInfo => snd (get_camera_info self)
  end.

(** main.py, [DepthStreamerApp.initialize_camera], on [self.camera] with
    the configured range. *)
Definition initialize_camera (max_distance : Z) : M (ArducamDepthCamera D) bool :=
  let* opened := open in
  if negb opened then ret false
  else
    let* started := start in
    if negb started then
      let* _ := close in ret false
    else
      let* _ := Camera.set_range (VInt max_distance) in
      let* camera_info := get_camera_info in
      ret true.

End Methods.

End Lifecycle.

(** ** webrtc/signaling_ws.py: relaying and connection traces *)

Module Relay.
Import Signaling.

(** [{**message, 'sender': sender_id}] *)
Definition with_sender (sender_id : string) (message : gmap string value)
  : gmap string value :=
  <["sender" := VStr sender_id]> message.

(** [target_id and target_id in self.clients]: the target to send to,
    if the message names a registered one.  The keys of [clients] are
    non-empty strings, so no other value is a registered target. *)
Definition registered_target (self : SignalingServer) (message : gmap string value)
  : option string :=
  match message !! "target" with
  | Some (VStr target_id) =>
      if decide (target_id ≠ "" ∧ target_id ∈ dom (clients self))
      then Some target_id else None
  | _ => None
  end.

(** [relay_message].  The keys of [rooms] are strings, so a [room] field
    of another type names no room and the broadcast returns at once. *)
Definition relay_message (sender_id : string) (message : gmap string value)
    (self : SignalingServer) : SignalingServer :=
  match registered_target self message with
  | Some target_id =>
      mkServer (clients self) (rooms self)
               (outbox self ++ [(target_id, with_sender sender_id message)])%list
  | None =>
      match message !! "room" with
      | None =>
          broadcast_to_room "default" (with_sender sender_id message)
                            (Some sender_id) self
      | Some (VStr room_id) =>
          broadcast_to_room room_id (with_sender sender_id message)
                            (Some sender_id) self
      | Some _ => self
      end
  end.

(** An operation as [handle_connection] can issue it: a client id is the
    non-empty decimal [str(id(websocket))], and [join] and [leave] come
    from the message loop of a registered client. *)
Definition enabled (self : SignalingServer) (op : Op) : Prop :=
  match op with
  | Connect c _ => c ≠ ""
  | Join c _ | Leave c _ => c ∈ dom (clients self)
  | Disconnect _ => True
  end.

Fixpoint admissible (ops : list Op) (self : SignalingServer) : Prop :=
  match ops with
  | [] => True
  | op :: ops' => enabled self op ∧ admissible ops' (step self op)
  end.

(** Every member of every room is a registered client. *)
Definition members_registered (self : SignalingServer) : Prop :=
  ∀ room_id members c,
    rooms self !! room_id = Some members → c ∈ members → c ∈ dom (clients self).

Definition is_disconnect (op : Op) : bool :=
  match op with
  | Disconnect _ => true
  | _ => false
  end.

End Relay.

(** ** webrtc/peer_manager.py: shutdown *)

Module Shutdown.
Import PeerManager.

(** A connection object after [close]. *)
Definition closed (o : RTCPeerConnection) : RTCPeerConnection :=
  mkPC true (pc_senders o) (remoteDescription o) (localDescription o) (pc_data_channels o).

(** [PeerManager.stop] on the manager and the video track it owns:
    stop the track, close the connection of every entry of [peers],
    clear [peers]. *)
Definition close_all (pcs : list nat) : M PeerManager unit :=
  foldr (λ pc rest, let* _ := close pc in rest) (ret tt) pcs.

Definition stop : M (VideoTrack.DepthVideoStreamTrack * PeerManager) unit :=
  let* _ := zoom fst (λ t s, (t, snd s)) VideoTrack.stop in
  zoom snd (λ m s, (fst s, m))
    (let* self := get in
     let* _ := close_all (snd <$> map_to_list (peers self)) in
     modify (λ self, mkManager ∅ (heap self))).

End Shutdown.

(** ** webrtc/datachannel.py *)

Module DataChannel.

(** The handler's channels and the state the control handler's
    controllers act on. *)
Record DataChannelHandler (C S : Type) := mkHandler {
  channels : gmap string C;
  controllers : S;
}.

Arguments mkHandler {C S}.
Arguments channels {C S}.
Arguments controllers {C S}.

Section Handler.
Context {C S : Type}.
Variable control_handler : ControlHandler S.

(** [channel.send(json.dumps(d))] on a channel object: the channel
    afterwards, or the exception raised. *)
Variable send : gmap string value → C → exc + C.

(** [json.loads(message)]: the class name of the decoded value, or
    [None] when the text is not JSON.  The handler passes the decoded
    value on without looking into it. *)
Variable json_loads : string → option string.

Definition on_controllers {A} (m : M S A) : M (DataChannelHandler C S) A :=
  zoom controllers (λ s h, mkHandler (channels h) s) m.

(** [self.channels[peer_id].send(json.dumps(d))] *)
Definition send_to (peer_id : string) (d : gmap string value)
  : M (DataChannelHandler C S) unit :=
  let* self := get in
  match channels self !! peer_id with
  | None => ret tt
  | Some channel =>
      match send d channel with
      | inl e => raise e
      | inr channel' =>
          put (mkHandler (<[peer_id := channel']> (channels self)) (controllers self))
      end
  end.

Definition send_error (peer_id : string) (text : string)
  : M (DataChannelHandler C S) unit :=
  try_except
    (send_to peer_id {[ "type" := VStr "error"; "message" := VStr text ]})
    (λ _, ret tt).

Definition handle_message (peer_id : string) (text : string)
  : M (DataChannelHandler C S) unit :=
  match json_loads text with
  | None => send_error peer_id "Invalid JSON"
  | Some class_name =>
      try_except
        (let* response :=
           on_controllers (handle_command control_handler (OtherObject class_name)) in
         send_to peer_id (Wire.to_dict response))
        (λ e, send_error peer_id (exc_text e))
  end.

End Handler.

End DataChannel.

(** ** utils/fps_counter.py *)

Module FpsCounter.

(** [timestamps] is a deque bounded by [window_size]; times are taken
    as rationals. *)
Record FPSCounter := mkCounter {
  window_size : nat;
  timestamps : list Q;
  _last_fps : Q;
}.

Definition init (window_size : nat) : FPSCounter := mkCounter window_size [] 0.

(** [deque.append] on a deque of bounded length: the oldest entries
    fall out on the left. *)
Definition deque_append (maxlen : nat) (d : list Q) (x : Q) : list Q :=
  drop (length d + 1 - maxlen) (d ++ [x])%list.

Definition fps_of (ts : list Q) : Q :=
  match ts with
  | first :: _ :: _ =>
      let time_span := (List.last ts first - first)%Q in
      if Qlt_le_dec 0 time_span
      then (inject_Z (Z.of_nat (length ts) - 1) / time_span)%Q
      else 0%Q
  | _ => 0%Q
  end.

(** [tick], at wall-clock time [now] *)
Definition tick (now : Q) (self : FPSCounter) : FPSCounter :=
  let ts := deque_append (window_size self) (timestamps self) now in
  mkCounter (window_size self) ts (fps_of ts).

Definition get_fps (self : FPSCounter) : Q := _last_fps self.

End FpsCounter.

(** ** A scripted SDK for the camera's life cycle *)

Module LifecycleFixtures.
Import Camera Lifecycle.

(** The SDK object answers from a fixed table and logs the calls made
    on it. *)
Record Sim := mkSim {
  open_code : Z;
  start_code : Z;
  info_answer : exc + ArducamCameraInfo;
  calls : list string;
}.

Definition logged {A} (name : string) (answer : Sim → exc + A) : M Sim A :=
  λ d, (answer d, mkSim (open_code d) (start_code d) (info_answer d)
                        (calls d ++ [name])%list).

#[global] Instance sim_sdk : ArducamSdk Sim := {|
  requestFrame _ := logged "requestFrame" (λ _, inr None);
  releaseFrame _ := logged "releaseFrame" (λ _, inr tt);
  setControl_RANGE _ := logged "setControl" (λ _, inr tt);
  getControl_RANGE := logged "getControl" (λ _, inr (VInt 4000));
|}.

#[global] Instance sim_lifecycle : ArducamSdkLifecycle Sim := {|
  sdk_open _ _ := logged "open" (λ d, inr (open_code d));
  sdk_openWithFile _ _ := logged "openWithFile" (λ d, inr (open_code d));
  sdk_start := logged "start" (λ d, inr (start_code d));
  sdk_stop := logged "stop" (λ _, inr tt);
  sdk_close := logged "close" (λ _, inr tt);
  sdk_getCameraInfo := logged "getCameraInfo" info_answer;
|}.

Definition csi : CameraArgs := mkCameraArgs "CSI" 0 None.

Definition vga : ArducamCameraInfo := mkCameraInfo 240 180 "VGA".

(** A working device, and one whose [getCameraInfo] raises. *)
Definition good_device : Sim := mkSim 0 0 (inr vga) [].

Definition no_info_device : Sim := mkSim 0 0 (inl (RuntimeError "no info")) [].

End LifecycleFixtures.

(** ** Track states and worlds for running the tick *)

Module TickFixtures.
Import Camera VideoTrack.

(** The cache, the clock of the last render and the settings of two
    track states agree. *)
Definition same_cache (t1 t2 : DepthVideoStreamTrack) : Prop :=
  _current_frame t1 = _current_frame t2
  ∧ last_frame_time t1 = last_frame_time t2
  ∧ fps_limit t1 = fps_limit t2
  ∧ frame_interval t1 = frame_interval t2
  ∧ _running t1 = _running t2.

(** A frame processor (stateless) that renders every frame to the same
    small image. *)
Definition constant_processor : ArducamDepthFrame → M unit ndarray :=
  λ _, ret (Fixtures.tiny 3).

(** A track that was never started, with a cached frame. *)
Definition stopped_world : World Fixtures.Script unit :=
  mkWorld
    (mkTrack 30 (1 / 30) 0 false (Some (Fixtures.tiny 5)) None)
    (mkCamera [] None true true)
    tt.

(** An SDK object that delivers the same depth frame on every request
    and counts the frames handed back to it. *)
Record Counting := mkCounting { released : nat }.

#[global] Instance counting_sdk : ArducamSdk Counting := {|
  requestFrame _ := ret (Some (DepthData (Fixtures.tiny 7) (Fixtures.tiny 9)));
  releaseFrame _ := modify (λ d, mkCounting (S (released d)));
  setControl_RANGE _ := ret tt;
  getControl_RANGE := ret (VInt 4000);
|}.

(** A running track with nothing cached over a started camera on that
    SDK object. *)
Definition fresh_world : World Counting unit :=
  mkWorld
    (mkTrack 30 (1 / 30) 0 true None None)
    (mkCamera (mkCounting 0) (Some (mkCameraInfo 2 1 "VGA")) true true)
    tt.

End TickFixtures.

(** ** A logging data channel *)

Module ChannelFixtures.

(** A channel is the list of dictionaries sent on it; sending never
    fails. *)
Definition logging_send : gmap string value → list (gmap string value)
                          → exc + list (gmap string value) :=
  λ d channel, inr (channel ++ [d])%list.

(** Controllers that count the calls made on them. *)
Definition counting_handler : ControlHandler nat :=
  mkControlHandler _
    {| Handlers.set_range := λ _, modify S;
       Handlers.set_confidence_threshold := λ _, modify S;
       Handlers.set_colormap := λ _, modify S |}
    {| Handlers.set_fps_limit := λ _, modify S |}.

(** Every text decodes to a JSON object. *)
Definition always_dict : string → option string := λ _, Some "dict".

Definition one_peer : DataChannel.DataChannelHandler (list (gmap string value)) nat :=
  DataChannel.mkHandler {[ "7" := [] ]} 0%nat.

End ChannelFixtures.

(** * Properties *)

(** Unfold the monad operations down to pairs and matches. *)
Ltac run_py :=
  repeat (progress (unfold Py.bind, try_except, zoom, get, put, modify, ret,
                      raise, lift in *; cbn beta iota zeta delta
                      [fst snd Camera._camera Camera._info Camera._is_open
                       Camera._is_started VideoTrack.track VideoTrack.camera
                       VideoTrack.frame_processor] in *)).

(** ** ControlHandler *)

Section HandlerFacts.
Context {S : Type}.
Variable self : ControlHandler S.


(** A response tagged ["ack"] names the wire type of the command. *)
Lemma ack_names_wire_type (command : ControlCommand) s response s' :
  handle_command self command s = (inr response, s') →
  resp_type response = "ack" →
  wire_type command = Some (command_type response).
Proof.
  unfold handle_command, try_except.
  destruct (apply_command self command s) as [[e|r] s1] eqn:E.
  - unfold ret. intros [= <- <-]. discriminate.
  - intros [= <- <-] Hack. revert E.
    destruct command; simpl; unfold Py.bind, ret.
    1: destruct (set_range _ _ _) as [[?|?] ?].
    3: destruct (set_confidence_threshold _ _ _) as [[?|?] ?].
    5: destruct (set_colormap _ _ _) as [[?|?] ?].
    7: destruct (set_fps_limit _ _ _) as [[?|?] ?].
    all: intros [= <- <-]; try done.
Qed.

End HandlerFacts.

(** The lower-cased class name separates the four command classes. *)
Lemma error_kind_identifies_class (c1 c2 : ControlCommand) :
  wire_type c1 ≠ None → wire_type c2 ≠ None →
  lower (class_name_of c1) = lower (class_name_of c2) →
  wire_type c1 = wire_type c2.
Proof. destruct c1, c2; simpl; intros ? ?; (done || discriminate). Qed.

(** In an error response the four command classes are never named by
    their wire type. *)
Lemma error_kind_is_not_wire_type (command : ControlCommand) (w : string) :
  wire_type command = Some w → lower (class_name_of command) ≠ w.
Proof. destruct command; simpl; intros [= <-]; discriminate. Qed.

(** ** Blank images *)

Section NumpyFacts.

Lemma np_zeros_ok (shape : list Z) :
  forallb (Z.leb 0) shape = true → np_zeros shape = inr (zeros shape).
Proof. intros Hs. unfold np_zeros. by rewrite Hs. Qed.

Lemma np_zeros_blank (shape : list Z) (img : ndarray) :
  np_zeros shape = inr img → all_zero img ∧ nd_shape img = shape.
Proof.
  unfold np_zeros. destruct (forallb _ _); [|discriminate].
  intros [= <-]. split; [|reflexivity].
  unfold all_zero, zeros. simpl. apply Forall_replicate. reflexivity.
Qed.

End NumpyFacts.

(** ** Runtime parameters of the processor and the track *)

Section ParameterFacts.
Import FrameProcessing.

Lemma set_colormap_unknown (name : string) (self : DepthFrameProcessor) :
  COLORMAPS !! upper name = None →
  set_colormap (VStr name) self = (inr tt, self).
Proof. intros Hn. unfold set_colormap, Py.bind, lift. simpl. by rewrite Hn. Qed.

Lemma set_colormap_known (name : string) (c : Colormap) (self : DepthFrameProcessor) :
  COLORMAPS !! upper name = Some c →
  set_colormap (VStr name) self
  = (inr tt, mkDepthFrameProcessor (max_distance self) (confidence_threshold self) c).
Proof. intros Hn. unfold set_colormap, Py.bind, lift. simpl. by rewrite Hn. Qed.

Lemma set_confidence_threshold_clamps (t : Z) (self : DepthFrameProcessor) :
  ∃ self', set_confidence_threshold (VInt t) self = (inr tt, self')
           ∧ confidence_threshold self' = Z.max 0 (Z.min 255 t)
           ∧ (0 ≤ confidence_threshold self' ≤ 255)%Z
           ∧ colormap self' = colormap self
           ∧ max_distance self' = max_distance self.
Proof. eexists. split; [reflexivity|]. simpl. repeat split; lia. Qed.

Lemma set_fps_limit_clamps (fps : Z) (self : VideoTrack.DepthVideoStreamTrack) :
  ∃ self', VideoTrack.set_fps_limit (VInt fps) self = (inr tt, self')
           ∧ VideoTrack.fps_limit self' = Z.max 5 (Z.min 30 fps)
           ∧ (5 ≤ VideoTrack.fps_limit self' ≤ 30)%Z.
Proof. eexists. split; [reflexivity|]. simpl. split; lia. Qed.

(** The repository's processor never raises from [process_frame]: a
    failure of the rendering pipeline yields a black 640x480 image. *)
Lemma process_frame_never_raises {F} (render : DepthFrameProcessor → F → exc + ndarray)
    (frame : F) (self : DepthFrameProcessor) :
  ∃ img, process_frame render frame self = (inr img, self)
         ∧ (∀ e, render self frame = inl e → img = zeros [480; 640; 3]).
Proof.
  unfold process_frame, try_except, Py.bind, get, lift.
  destruct (render self frame) as [e|img] eqn:E.
  - rewrite (np_zeros_ok [480; 640; 3]) by reflexivity. by eexists.
  - exists img. split; [done|]. by intros e [=].
Qed.

Example confidence_below_range :
  confidence_threshold (snd (set_confidence_threshold (VInt (-5)) (init 4000))) = 0.
Proof. reflexivity. Qed.

Example confidence_above_range :
  confidence_threshold (snd (set_confidence_threshold (VInt 999) (init 4000))) = 255.
Proof. reflexivity. Qed.

Example confidence_not_a_number :
  set_confidence_threshold (VStr "high") (init 4000)
  = (inl (Exc "TypeError" "'<' not supported between instances of 'str' and 'int'"),
     init 4000).
Proof. reflexivity. Qed.

Example colormap_not_a_string :
  set_colormap (VInt 3) (init 4000)
  = (inl (Exc "AttributeError" "'int' object has no attribute 'upper'"), init 4000).
Proof. reflexivity. Qed.

Example fps_below_range :
  VideoTrack.fps_limit (snd (VideoTrack.set_fps_limit (VInt 1) (VideoTrack.init 30))) = 5.
Proof. reflexivity. Qed.

Example fps_above_range :
  VideoTrack.fps_limit (snd (VideoTrack.set_fps_limit (VInt 100) (VideoTrack.init 30))) = 30.
Proof. reflexivity. Qed.

Example jet_is_supported : COLORMAPS !! upper "jet" = Some COLORMAP_JET.
Proof. reflexivity. Qed.

Example viridis_is_unknown : COLORMAPS !! upper "viridis" = None.
Proof. reflexivity. Qed.

End ParameterFacts.

(** ** The dispatcher as wired by the application *)

Section AppFacts.
Import Camera App.
Context {D : Type} `{ArducamSdk D}.

(** The processor is the stream controller, and it defines no
    [set_fps_limit]. *)
Lemma stream_controller_lacks_set_fps_limit (fps : value) (a : AppState D) :
  set_fps_limit (stream_controller control_handler) fps a
  = (inl (AttributeError "DepthFrameProcessor" "set_fps_limit"), a).
Proof. reflexivity. Qed.

(** The camera is the camera controller, and it defines no
    [set_colormap]. *)
Lemma camera_controller_lacks_set_colormap (name : value) (a : AppState D) :
  Handlers.set_colormap (camera_controller control_handler) name a
  = (inl (AttributeError "ArducamDepthCamera" "set_colormap"), a).
Proof. reflexivity. Qed.

(** C5: in the application, [SetFpsLimitCommand] with any integer
    reaches the frame processor, which has no [set_fps_limit]; the
    command is answered with an error and nothing changes, the track's
    rate limit included. *)
Theorem app_set_fps_limit_is_rejected (fps : Z) (a : AppState D) :
  handle_command control_handler (SetFpsLimitCommand (VInt fps)) a
  = (inr (mkControlResponse "error" "setfpslimitcommand"
            "'DepthFrameProcessor' object has no attribute 'set_fps_limit'"), a).
Proof.
  unfold handle_command, try_except, apply_command, Py.bind.
  rewrite stream_controller_lacks_set_fps_limit.
  reflexivity.
Qed.

(** At the inputs the specification names: the limit stays 30. *)
Example app_fps_limit_unchanged (d : D) :
  VideoTrack.fps_limit
    (app_video_track
       (snd (handle_command control_handler (SetFpsLimitCommand (VInt 1)) (init d 4000))))
  = 30
  ∧ VideoTrack.fps_limit
      (app_video_track
         (snd (handle_command control_handler (SetFpsLimitCommand (VInt 100)) (init d 4000))))
    = 30.
Proof. split; reflexivity. Qed.

(** C6: the well-formed message [{type: set_fps_limit, payload: {fps: 15}}]
    becomes a [SetFpsLimitCommand], whose wire type is ["set_fps_limit"];
    dispatched in the application it is answered with an error whose
    [command_type] is ["setfpslimitcommand"]. *)
Theorem error_response_names_class_not_wire_type (a : AppState D) :
  let msg := mkControlMessage "set_fps_limit" (Dict {[ "fps" := VInt 15 ]}) in
  ∃ command response,
    to_command msg = inr command
    ∧ wire_type command = Some (msg_type msg)
    ∧ handle_command control_handler command a = (inr response, a)
    ∧ resp_type response = "error"
    ∧ command_type response = "setfpslimitcommand"
    ∧ command_type response ≠ msg_type msg.
Proof.
  simpl. eexists _, _. split; [reflexivity|].
  split; [reflexivity|]. split; [reflexivity|]. done.
Qed.

(** C9: in the application, [SetColormapCommand] with the supported name
    ["JET"] reaches the camera, which has no [set_colormap]; the command
    is answered with an error and the processor keeps its colormap. *)
Theorem app_set_colormap_is_rejected (a : AppState D) :
  handle_command control_handler (SetColormapCommand (VStr "JET")) a
  = (inr (mkControlResponse "error" "setcolormapcommand"
            "'ArducamDepthCamera' object has no attribute 'set_colormap'"), a)
  ∧ FrameProcessing.COLORMAPS !! upper "JET" = Some FrameProcessing.COLORMAP_JET.
Proof.
  split; [|reflexivity].
  unfold handle_command, try_except, apply_command, Py.bind.
  rewrite camera_controller_lacks_set_colormap.
  reflexivity.
Qed.

End AppFacts.

(** ** The camera wrapper *)

Section CameraFacts.
Import Camera.
Context {D : Type} `{ArducamSdk D}.

(** C10: [request_frame] never raises.  It returns [None] when the
    camera has not been started and when the SDK call raises; a frame
    is returned only when the camera is started and the SDK delivered
    depth data, which the frame then wraps. *)
Theorem request_frame_none_unless_depth (timeout_ms : Z) (c : ArducamDepthCamera D) :
  ∃ r c',
    request_frame timeout_ms c = (inr r, c')
    ∧ (_is_started c = false → r = None ∧ c' = c)
    ∧ (∀ e d', requestFrame timeout_ms (_camera c) = (inl e, d') → r = None)
    ∧ (∀ frame, r = Some frame →
         _is_started c = true
         ∧ ∃ depth conf d',
             requestFrame timeout_ms (_camera c) = (inr (Some (DepthData depth conf)), d')
             ∧ frame = mkArducamDepthFrame depth conf (DepthData depth conf)).
Proof.
  unfold request_frame, Py.bind, get, try_except, sdk, zoom, ret.
  destruct (_is_started c) eqn:Es; simpl.
  - destruct (requestFrame timeout_ms (_camera c)) as [[e|[[depth conf|raw]|]] d1] eqn:Er;
      eexists _, _; (split; [reflexivity|]);
      (split; [discriminate|]); (split; [by intros|]).
    all: try (intros frame [=]; fail).
    intros frame [= <-]. split; [done|]. by eexists _, _, _.
  - eexists _, _. split; [reflexivity|]. split; [by intros|].
    split; [by intros|]. by intros frame [=].
Qed.

Lemma request_frame_keeps_info (timeout_ms : Z) (c : ArducamDepthCamera D) :
  ∃ r c', request_frame timeout_ms c = (inr r, c') ∧ _info c' = _info c.
Proof.
  unfold request_frame, Py.bind, get, try_except, sdk, zoom, ret.
  destruct (_is_started c); simpl; [|by eexists _, _].
  destruct (requestFrame timeout_ms (_camera c)) as [[e|[[depth conf|raw]|]] d1];
    by eexists _, _.
Qed.

Lemma release_frame_never_raises (frame : ArducamDepthFrame) (c : ArducamDepthCamera D) :
  ∃ c', release_frame frame c = (inr tt, c') ∧ _info c' = _info c.
Proof.
  unfold release_frame, try_except, sdk, zoom, ret.
  destruct (releaseFrame _ _) as [[e|[]] d1]; by eexists.
Qed.

Lemma set_range_never_raises (v : value) (c : ArducamDepthCamera D) :
  ∃ c', Camera.set_range v c = (inr tt, c').
Proof.
  unfold Camera.set_range, Py.bind, get, try_except, sdk, zoom, ret.
  destruct (_is_open c); simpl; [|by eexists].
  destruct (setControl_RANGE _ _) as [[e|[]] d1]; [by eexists|].
  simpl. destruct (getControl_RANGE _) as [[e|?] d2]; by eexists.
Qed.

End CameraFacts.

Section AppRangeFacts.
Import Camera App.
Context {D : Type} `{ArducamSdk D}.

(** A command the application does apply: the camera defines
    [set_range]. *)
Example app_set_range_acks (a : AppState D) :
  ∃ a', handle_command control_handler (SetRangeCommand (VInt 2000)) a
        = (inr (mkControlResponse "ack" "set_range" "Range set to 2000"), a').
Proof.
  destruct (set_range_never_raises (VInt 2000) (app_camera a)) as (c' & E).
  unfold handle_command, try_except, apply_command, Py.bind. simpl.
  change (call TheCamera "set_range" (VInt 2000) a)
    with (on_app_camera (Camera.set_range (VInt 2000)) a).
  unfold on_app_camera, zoom. rewrite E. by eexists.
Qed.

End AppRangeFacts.

(** At a concrete input: a started camera whose SDK delivers depth data. *)
Lemma request_frame_witness :
  let c := Camera.mkCamera
             [inr (Some (Camera.DepthData (Fixtures.tiny 7) (Fixtures.tiny 9)))]
             None true true in
  Camera._is_started c = true
  ∧ ∃ depth conf d',
      Camera.requestFrame 2000 (Camera._camera c)
      = (inr (Some (Camera.DepthData depth conf)), d').
Proof.
  intros c.
  destruct (request_frame_none_unless_depth 2000 c) as (r & c' & E & _ & _ & Hsome).
  vm_compute in E.
  destruct (Hsome (Camera.mkArducamDepthFrame (Fixtures.tiny 7) (Fixtures.tiny 9)
                     (Camera.DepthData (Fixtures.tiny 7) (Fixtures.tiny 9))))
    as (Hs & depth & conf & d' & Er & _).
  - injection E as <- _. reflexivity.
  - split; [exact Hs|]. exists depth, conf, d'. exact Er.
Defined.

(** ** The frame-production tick *)


Section RecvFacts.
Import Camera VideoTrack.
Context {D P : Type} `{ArducamSdk D}.
Variable process_frame : ArducamDepthFrame → M P ndarray.
Variable from_ndarray_rejects : ndarray → Z → exc.

Lemma next_timestamp_run (t : DepthVideoStreamTrack) :
  ∃ pts t', next_timestamp t = (inr pts, t')
            ∧ _current_frame t' = _current_frame t.
Proof. unfold next_timestamp, Py.bind, get, put, ret. by eexists _, _. Qed.

Lemma blank_frame_data_run (w : World D P) :
  ∃ img, blank_frame_data w = (inr img, w)
         ∧ all_zero img
         ∧ nd_shape img = blank_shape (camera w).
Proof.
  assert (Hdef : ∃ img, np_zeros [180; 240; 3] = inr img)
    by (eexists; by apply np_zeros_ok).
  destruct Hdef as (img0 & E0).
  destruct (np_zeros_blank _ _ E0) as (Hz0 & Hs0).
  destruct w as [t [d [info|] o s] p];
    unfold blank_frame_data, on_camera, get_camera_info, blank_shape; run_py;
    cbn [camera _info].
  - destruct (np_zeros [height info; width info; 3]) as [e|img] eqn:E.
    + rewrite E0. exists img0. split; [done|]. split; [done|].
      unfold np_zeros in E.
      by destruct (forallb (Z.leb 0) [height info; width info; 3]).
    + exists img. destruct (np_zeros_blank _ _ E) as (Hz & Hs).
      split; [done|]. split; [done|].
      unfold np_zeros in E.
      by destruct (forallb (Z.leb 0) [height info; width info; 3]).
  - rewrite E0. exists img0. split; [done|]. split; [done|]. done.
Qed.

Lemma fallback_run (w : World D P) :
  ∃ img pts w',
    fallback from_ndarray_rejects w = (inl (from_ndarray_rejects img pts), w')
    ∧ is_fallback_image w img.
Proof.
  unfold fallback, is_fallback_image, from_ndarray.
  destruct w as [t c p].
  destruct (_current_frame t) as [cached|] eqn:Ec.
  - unfold Py.bind, on_track, zoom, next_timestamp, get, put, ret, lift. simpl.
    rewrite Ec. by eexists _, _, _.
  - unfold Py.bind at 1. unfold on_track at 1, zoom. simpl.
    unfold Py.bind at 1. unfold on_track at 1, zoom, get. simpl.
    set (w1 := mkWorld _ c p).
    destruct (blank_frame_data_run w1) as (img & E & Hz & Hs).
    unfold Py.bind, lift. rewrite Ec. rewrite E. by eexists _, _, _.
Qed.

Lemma is_fallback_image_ext (w1 w2 : World D P) (img : ndarray) :
  track w1 = track w2 → _info (camera w1) = _info (camera w2) →
  is_fallback_image w1 img → is_fallback_image w2 img.
Proof. unfold is_fallback_image, blank_shape. by intros -> ->. Qed.

Lemma produce_run (current_time : Q) (w : World D P) :
  ∃ img pts w',
    produce process_frame from_ndarray_rejects current_time w
    = (inl (from_ndarray_rejects img pts), w')
    ∧ (sensor_or_render_fails process_frame w = true →
       is_fallback_image w img).
Proof.
  destruct w as [tr c p].
  destruct (request_frame_keeps_info 2000 c) as (r & c1 & Er & Hi1).
  unfold produce, sensor_or_render_fails.
  unfold Py.bind at 1, on_camera at 1, zoom. simpl. rewrite Er.
  destruct r as [frame|].
  - unfold Py.bind at 1, try_except at 1.
    unfold render_and_cache.
    unfold Py.bind at 1 2, on_processor at 1, zoom. simpl.
    destruct (process_frame frame p) as [[e|img] p1] eqn:Ep.
    + unfold Py.bind at 1, on_camera at 1, zoom. simpl.
      destruct (release_frame_never_raises frame c1) as (c2 & Erel & Hi2).
      rewrite Erel. unfold ret at 1.
      destruct (fallback_run (mkWorld tr c2 p1)) as (img & pts & w' & Ef & Himg).
      exists img, pts, w'. split; [exact Ef|]. intros _.
      eapply is_fallback_image_ext; [| |exact Himg]; simpl; congruence.
    + unfold Py.bind at 1, on_track at 1, zoom, cache_frame, modify. simpl.
      unfold Py.bind at 1, on_camera at 1, zoom. simpl.
      destruct (release_frame_never_raises frame c1) as (c2 & Erel & Hi2).
      rewrite Erel.
      unfold Py.bind at 1 2, on_track at 1, zoom, next_timestamp, get, put, ret,
        lift, from_ndarray. simpl.
      unfold on_camera at 1, zoom. simpl.
      destruct (release_frame_never_raises frame c2) as (c3 & Erel' & Hi3).
      rewrite Erel'.
      match goal with |- context [fallback _ ?w2] =>
        destruct (fallback_run w2) as (img' & pts & w' & Ef & _) end.
      exists img', pts, w'. split; [exact Ef|]. discriminate.
  - unfold ret at 1.
    destruct (fallback_run (mkWorld tr c1 p)) as (img & pts & w' & Ef & Himg).
    exists img, pts, w'. split; [exact Ef|]. intros _.
    eapply is_fallback_image_ext; [| |exact Himg]; simpl; congruence.
Qed.

(** C2: no tick returns a frame.  Every call of [recv] ends in the
    exception of the library call that was to build the frame from an
    image, on each of its four return paths.  When the track is
    running and the camera yields no depth frame or the processor
    raises on the frame, the image handed to that call is the one the
    tick is to fall back to: the cached frame if there is one, and
    otherwise an all-zero image whose shape is the camera's resolution
    or 240x180. *)
Theorem recv_raises_on_every_tick (current_time : Q) (w : World D P) :
  ∃ img pts w',
    recv process_frame from_ndarray_rejects current_time w
    = (inl (from_ndarray_rejects img pts), w')
    ∧ (_running (track w) = true →
       sensor_or_render_fails process_frame w = true →
       is_fallback_image w img).
Proof.
  unfold recv.
  unfold Py.bind at 1, on_track at 1, zoom, get. simpl.
  assert (Hw : mkWorld (track w) (camera w) (frame_processor w) = w)
    by (by destruct w).
  rewrite Hw.
  destruct (_running (track w)) eqn:Erun; simpl.
  - destruct (Qlt_le_dec _ _) as [Hahead|Hdue].
    + destruct (_current_frame (track w)) as [cached|] eqn:Ec.
      * unfold Py.bind, on_track, zoom, next_timestamp, get, put, ret, lift,
          from_ndarray. simpl.
        eexists _, _, _. split; [reflexivity|]. intros _ _.
        unfold is_fallback_image. by rewrite Ec.
      * destruct (produce_run current_time w) as (img & pts & w' & E & Hf).
        exists img, pts, w'. split; [exact E|]. intros _. exact Hf.
    + destruct (produce_run current_time w) as (img & pts & w' & E & Hf).
      exists img, pts, w'. split; [exact E|]. intros _. exact Hf.
  - unfold Py.bind, on_track, zoom, next_timestamp, get, put, lift, ret, from_ndarray.
    cbn beta iota zeta.
    rewrite (np_zeros_ok [480; 640; 3]) by reflexivity.
    eexists _, _, _. split; [reflexivity|]. discriminate.
Qed.

End RecvFacts.

(** The tick at concrete inputs, with the exception the media library
    raises for an unknown format: a camera timeout with a cached frame,
    and a render error with nothing cached. *)
Example recv_timeout_with_cache_raises :
  fst (VideoTrack.recv Fixtures.failing_processor Fixtures.unknown_format 1
         Fixtures.stale_world)
  = inl (ValueError "Conversion from numpy array with format `6000` is not yet supported").
Proof. vm_compute. reflexivity. Qed.

Example recv_render_error_raises :
  fst (VideoTrack.recv Fixtures.failing_processor Fixtures.unknown_format 1
         Fixtures.degraded_world)
  = inl (ValueError "Conversion from numpy array with format `0` is not yet supported").
Proof. vm_compute. reflexivity. Qed.

Lemma recv_raises_witness :
  ∃ img pts w',
    VideoTrack.recv Fixtures.failing_processor Fixtures.unknown_format 1
      Fixtures.stale_world
    = (inl (Fixtures.unknown_format img pts), w')
    ∧ VideoTrack.is_fallback_image Fixtures.stale_world img.
Proof.
  destruct (recv_raises_on_every_tick Fixtures.failing_processor
              Fixtures.unknown_format 1 Fixtures.stale_world)
    as (img & pts & w' & E & Hf).
  exists img, pts, w'. split; [exact E|].
  apply Hf; vm_compute; reflexivity.
Defined.

(** ** The signaling server *)

Section SignalingFacts.
Import Signaling.

Lemma elem_of_recipients (self : SignalingServer) room_id exclude c :
  c ∈ recipients self room_id exclude ↔
  ∃ members, rooms self !! room_id = Some members
             ∧ c ∈ members ∧ Some c ≠ exclude ∧ c ∈ dom (clients self).
Proof.
  unfold recipients. destruct (rooms self !! room_id) as [members|].
  - rewrite list_elem_of_filter, elem_of_elements. split.
    + intros [[? ?] ?]. by exists members.
    + intros (m & [= <-] & ? & ? & ?). done.
  - split; [by intros ?%elem_of_nil|]. by intros (m & ? & _).
Qed.

(** C7: [broadcast_to_room] changes neither the client registry nor
    the rooms; every send it makes carries the given message to a
    client that is a member of the room, is registered, and is not the
    excluded client; for a room that does not exist it sends nothing. *)
Theorem broadcast_only_to_registered_members
    (room_id : string) (message : gmap string value)
    (exclude_client : option string) (self : SignalingServer) :
  ∃ sends,
    broadcast_to_room room_id message exclude_client self
    = mkServer (clients self) (rooms self) (outbox self ++ sends)%list
    ∧ (∀ c m, (c, m) ∈ sends →
         m = message
         ∧ Some c ≠ exclude_client
         ∧ c ∈ dom (clients self)
         ∧ ∃ members, rooms self !! room_id = Some members ∧ c ∈ members)
    ∧ (rooms self !! room_id = None → sends = []).
Proof.
  eexists. split; [reflexivity|]. split.
  - intros c m (c' & [= -> ->] & Hc)%list_elem_of_fmap.
    apply elem_of_recipients in Hc as (members & Hr & Hm & He & Hd).
    repeat split; try done. by exists members.
  - intros Hnone. unfold recipients. by rewrite Hnone.
Qed.

(** Every eligible member is sent the message. *)
Lemma broadcast_reaches_members room_id message exclude_client self members c :
  rooms self !! room_id = Some members → c ∈ members →
  Some c ≠ exclude_client → c ∈ dom (clients self) →
  (c, message) ∈ outbox (broadcast_to_room room_id message exclude_client self).
Proof.
  intros Hr Hm He Hd. simpl. apply elem_of_app. right.
  apply list_elem_of_fmap. exists c. split; [done|].
  apply elem_of_recipients. by exists members.
Qed.

Lemma join_room_nonempty c r self :
  rooms_nonempty self → rooms_nonempty (join_room c r self).
Proof.
  intros Hinv r' members'. unfold join_room. simpl.
  destruct (rooms self !! r) as [members|] eqn:Er; simpl.
  - destruct (decide (r = r')) as [<-|Hne].
    + rewrite lookup_alter_eq, Er. simpl. intros [= <-]. set_solver.
    + rewrite lookup_alter_ne by done. apply Hinv.
  - destruct (decide (r = r')) as [<-|Hne].
    + rewrite lookup_alter_eq, lookup_insert_eq. simpl. intros [= <-]. set_solver.
    + rewrite lookup_alter_ne, lookup_insert_ne by done. apply Hinv.
Qed.

Lemma join_room_member c r self :
  ∃ members, rooms (join_room c r self) !! r = Some members ∧ c ∈ members.
Proof.
  unfold join_room. simpl.
  destruct (rooms self !! r) as [members|] eqn:Er; simpl.
  - rewrite lookup_alter_eq, Er. simpl. eexists. split; [done|]. set_solver.
  - rewrite lookup_alter_eq, lookup_insert_eq. simpl. eexists. split; [done|]. set_solver.
Qed.

Lemma leave_room_nonempty c r self :
  rooms_nonempty self → rooms_nonempty (leave_room c r self).
Proof.
  intros Hinv r' members'. unfold leave_room.
  destruct (rooms self !! r) as [members|] eqn:Er; [|apply Hinv].
  simpl. case_decide as Hempty; simpl.
  - destruct (decide (r = r')) as [<-|Hne].
    + by rewrite lookup_delete_eq.
    + rewrite lookup_delete_ne, lookup_alter_ne by done. apply Hinv.
  - destruct (decide (r = r')) as [<-|Hne].
    + intros Hl Hm. apply Hempty. by rewrite Hl, Hm.
    + rewrite lookup_alter_ne by done. apply Hinv.
Qed.

Lemma register_nonempty c ws self :
  rooms_nonempty self → rooms_nonempty (register c ws self).
Proof. done. Qed.

(** Leaving a room that does not exist changes nothing. *)
Lemma leave_room_absent c r self :
  rooms self !! r = None → leave_room c r self = self.
Proof. intros Hr. unfold leave_room. by rewrite Hr. Qed.

(** Leaving an existing, non-empty room one is not in keeps the rooms
    and the clients, and notifies every other registered member. *)
Lemma leave_room_non_member c r self members :
  rooms self !! r = Some members → c ∉ members → members ≠ ∅ →
  rooms (leave_room c r self) = rooms self
  ∧ clients (leave_room c r self) = clients self
  ∧ ∀ c', c' ∈ members → c' ∈ dom (clients self) →
          (c', peer_left c) ∈ outbox (leave_room c r self).
Proof.
  intros Hr Hc Hne. unfold leave_room. rewrite Hr. simpl.
  assert (Halter : alter (λ m, m ∖ {[c]}) r (rooms self) = rooms self).
  { apply map_eq. intros r'. destruct (decide (r = r')) as [<-|?].
    - rewrite lookup_alter_eq, Hr. simpl. f_equal.
      apply set_eq. intros x. rewrite elem_of_difference, elem_of_singleton.
      split; [by intros [? _]|]. intros Hx. split; [done|]. by intros ->.
    - by rewrite lookup_alter_ne. }
  rewrite Halter. rewrite decide_False by (rewrite Hr; congruence).
  split; [done|]. split; [done|].
  intros c' Hc' Hd. simpl. apply elem_of_app. right.
  apply list_elem_of_fmap. exists c'. split; [done|].
  apply elem_of_recipients. exists members. simpl.
  repeat split; try done. intros [= ->]. done.
Qed.

(** C8: client [b] is registered and in no room; client [a] is the
    only member of room [default].  When [b] leaves [default], [a] is
    sent [peer_left] for [b]. *)
Theorem leave_by_non_member_notifies_room :
  let before := run [Connect "a" 1; Connect "b" 2; Join "a" "default"] init in
  let after := leave_room "b" "default" before in
  rooms before !! "default" = Some {["a"]}
  ∧ outbox before = []
  ∧ outbox after = [("a", peer_left "b")]
  ∧ after ≠ before.
Proof.
  intros before after.
  assert (Hout : outbox after = [("a", peer_left "b")]) by (vm_compute; reflexivity).
  assert (Hb : outbox before = []) by (vm_compute; reflexivity).
  split; [by vm_compute|]. split; [exact Hb|]. split; [exact Hout|].
  intros Heq. rewrite Heq, Hb in Hout. discriminate.
Qed.

(** A leave by a non-member also removes a room that a disconnect left
    empty. *)
Example leave_by_non_member_removes_empty_room :
  let before := run [Connect "a" 1; Join "a" "default"; Disconnect "a"; Connect "b" 2] init in
  rooms before !! "default" = Some ∅
  ∧ rooms (leave_room "b" "default" before) !! "default" = None.
Proof. split; by vm_compute. Qed.

(** C3: a client connects, joins room [default] and disconnects; the
    room is still registered afterwards, with no member. *)
Theorem disconnect_leaves_empty_room :
  let after := run [Connect "a" 1; Join "a" "default"; Disconnect "a"] init in
  rooms after !! "default" = Some ∅
  ∧ ¬ rooms_nonempty after.
Proof.
  intros after.
  assert (Hl : rooms after !! "default" = Some ∅) by (by vm_compute).
  split; [exact Hl|]. intros Hinv. by apply (Hinv _ _ Hl).
Qed.

(** The same sequence ending in [leave] removes the room. *)
Example leave_removes_empty_room :
  rooms (run [Connect "a" 1; Join "a" "default"; Leave "a" "default"] init)
  !! "default" = None.
Proof. by vm_compute. Qed.

End SignalingFacts.

(** At a concrete input: a broadcast in room [r] that excludes [a]
    reaches [b], a registered member other than [a]. *)
Lemma broadcast_witness :
  Some "b" ≠ Some "a"
  ∧ "b" ∈ dom (Signaling.clients Fixtures.two_in_room)
  ∧ ∃ members, Signaling.rooms Fixtures.two_in_room !! "r" = Some members
               ∧ "b" ∈ members.
Proof.
  destruct (broadcast_only_to_registered_members "r" (Signaling.peer_left "a")
              (Some "a") Fixtures.two_in_room) as (sends & E & Hsends & _).
  apply (f_equal Signaling.outbox) in E. simpl in E.
  assert (Hin : ("b", Signaling.peer_left "a") ∈ sends).
  { rewrite <- E. vm_compute. left. }
  destruct (Hsends _ _ Hin) as (_ & Hne & Hdom & Hmem).
  split; [exact Hne|]. split; [exact Hdom | exact Hmem].
Defined.

(** ** The peer manager *)

Section PeerManagerFacts.
Import PeerManager.
Variable accept_remote : value → value → option exc.
Variable create_answer : value → exc + string.
Variable accept_local : string → exc + string.
Variable open_channel : string → option exc.

(** C4: when [sender_id] already refers to an open connection object,
    [handle_offer] (whether it returns or raises) makes [sender_id]
    refer to a new object and leaves the prior object as it was: still
    open, and no longer reachable through [peers]. *)
Theorem handle_offer_keeps_prior_transport_open
    (self : PeerManager) (sender_id : string) (offer : gmap string value)
    (pc : nat) (o : RTCPeerConnection) :
  peers self !! sender_id = Some pc →
  heap self !! pc = Some o →
  pc_closed o = false →
  let self' := snd (handle_offer accept_remote create_answer accept_local open_channel
                      sender_id offer self) in
  peers self' !! sender_id = Some (length (heap self))
  ∧ pc ≠ length (heap self)
  ∧ heap self' !! pc = Some o
  ∧ is_open self' pc.
Proof.
  intros Hp Hh Hopen.
  assert (Hlt : (pc < length (heap self))%nat) by (by eapply lookup_lt_Some).
  assert (Hne : length (heap self) ≠ pc) by lia.
  unfold handle_offer, create_peer_connection, setRemoteDescription,
    setLocalDescription, createDataChannel, localDescription_sdp, update_pc, is_open.
  destruct (accept_remote _ _) as [e|]; run_py; simpl;
    [|destruct (create_answer _) as [e|answer]; simpl;
      [|destruct (accept_local _) as [e|local]; simpl;
        [|destruct (open_channel _) as [e|]; simpl;
          [|match goal with |- context [mbind localDescription ?x] =>
              destruct (mbind localDescription x) end; simpl]]]];
    rewrite !list_lookup_alter_ne by done;
    rewrite !lookup_app_l by done;
    rewrite lookup_insert_eq, Hh; eauto 10.
Qed.

(** [remove_peer] closes the connection before dropping the entry. *)
Lemma remove_peer_closes (self : PeerManager) (peer_id : string) (pc : nat)
    (o : RTCPeerConnection) :
  peers self !! peer_id = Some pc → heap self !! pc = Some o →
  let self' := snd (remove_peer peer_id self) in
  peers self' !! peer_id = None ∧ ¬ is_open self' pc.
Proof.
  intros Hp Hh. unfold remove_peer, close, update_pc. run_py. rewrite Hp. simpl.
  split; [by rewrite lookup_delete_eq|].
  intros (o' & Hl & Hc). simpl in Hl.
  rewrite list_lookup_alter_eq, Hh in Hl.
  simpl in Hl. injection Hl as <-. discriminate.
Qed.

End PeerManagerFacts.

(** Two offers in a row from client ["7"]: the first connection object
    stays open after the second offer has been answered. *)
Lemma handle_offer_twice_witness :
  let first := snd (PeerManager.handle_offer Fixtures.accept_all Fixtures.fixed_answer
                      Fixtures.gathered Fixtures.open_any
                      "7" Fixtures.an_offer PeerManager.init) in
  let second := snd (PeerManager.handle_offer Fixtures.accept_all Fixtures.fixed_answer
                       Fixtures.gathered Fixtures.open_any
                       "7" Fixtures.an_offer first) in
  PeerManager.peers second !! "7" = Some 1%nat
  ∧ PeerManager.is_open second 0.
Proof.
  intros first second.
  destruct (handle_offer_keeps_prior_transport_open
              Fixtures.accept_all Fixtures.fixed_answer Fixtures.gathered Fixtures.open_any
              first "7" Fixtures.an_offer 0%nat
              (PeerManager.mkPC false 1 (Some (VStr "offer", VStr "v=0"))
                 (Some "v=0 a=end-of-candidates") ["controls"]))
    as (Hp & _ & _ & Ho).
  - vm_compute. reflexivity.
  - vm_compute. reflexivity.
  - reflexivity.
  - split; [exact Hp | exact Ho].
Defined.

(** * Further properties *)

(** ** Control messages on the wire *)

Section WireFacts.

(** X1: when [to_command] returns a command, the command's class is the
    one the message type names, and its field holds the payload value
    stored under that class's key; other payload keys play no part. *)
Theorem to_command_carries_payload (m : ControlMessage) (c : ControlCommand) :
  to_command m = inr c →
  wire_type c = Some (msg_type m)
  ∧ ∃ key v,
      payload m !! key = Some v
      ∧ ((key = "max_distance" ∧ c = SetRangeCommand v)
         ∨ (key = "threshold" ∧ c = SetConfidenceCommand v)
         ∨ (key = "colormap" ∧ c = SetColormapCommand v)
         ∨ (key = "fps" ∧ c = SetFpsLimitCommand v)).
Proof.
  destruct m as [type [d|class_name]]; unfold to_command, getitem, map_res;
    cbn [msg_type payload]; [|repeat case_decide; discriminate].
  repeat case_decide; try discriminate.
  all: match goal with |- context [?d' !! ?k] =>
         destruct (d' !! k) as [v|] eqn:Ek; [|discriminate] end.
  all: intros [= <-]; simpl; split; [congruence|]; eexists _, v; split; [exact Ek|].
  - by left.
  - right. by left.
  - do 2 right. by left.
  - do 3 right. done.
Qed.

(** X2: [to_command] fails in three ways only: [ValueError] for a type
    outside the four wire types, whatever the payload is; and, for one
    of the four types, [KeyError] when the payload is a dictionary
    lacking the key of the named type, or the [TypeError] of the
    subscript when the payload is not a dictionary. *)
Theorem to_command_rejects (m : ControlMessage) (e : exc) :
  to_command m = inl e →
  ((msg_type m ∉ ["set_range"; "set_confidence_threshold"; "set_colormap"; "set_fps_limit"])
   ∧ e = ValueError ("Unknown command type: " +:+ msg_type m))
  ∨ (∃ key,
      (msg_type m, key) ∈ [("set_range", "max_distance");
                            ("set_confidence_threshold", "threshold");
                            ("set_colormap", "colormap");
                            ("set_fps_limit", "fps")]
      ∧ ((∃ d, payload m = Dict d ∧ d !! key = None ∧ e = KeyError key)
         ∨ (∃ class_name,
              payload m = NotDict class_name
              ∧ e = TypeError_getitem class_name
              ∧ exc_class e = "TypeError"))).
Proof.
  destruct m as [type p]; unfold to_command; cbn [msg_type payload].
  repeat case_decide.
  5: { intros [= <-]. left. split; [|done].
       rewrite !not_elem_of_cons. repeat split; try done. apply not_elem_of_nil. }
  all: subst type; intros He; right; eexists; split;
    [repeat first [apply list_elem_of_here | apply list_elem_of_further]|].
  all: destruct p as [d|class_name]; unfold getitem, map_res in He;
    [left; exists d; split; [done|];
     match type of He with context [?d' !! ?k] =>
       destruct (d' !! k) as [v|] eqn:Ek; [discriminate|] end;
     injection He as <-; done
    |right; exists class_name; injection He as <-; done].
Qed.

(** X3: [to_dict] writes exactly the three fields of the response, as
    strings, and two responses with the same dictionary are equal. *)
Theorem to_dict_round_trip (r : ControlResponse) :
  Wire.to_dict r !! "type" = Some (VStr (resp_type r))
  ∧ Wire.to_dict r !! "command_type" = Some (VStr (command_type r))
  ∧ Wire.to_dict r !! "message" = Some (VStr (message r))
  ∧ dom (Wire.to_dict r) = {[ "type"; "command_type"; "message" ]}
  ∧ ∀ r', Wire.to_dict r = Wire.to_dict r' → r = r'.
Proof.
  assert (Hl : ∀ x, Wire.to_dict x !! "type" = Some (VStr (resp_type x))
                    ∧ Wire.to_dict x !! "command_type" = Some (VStr (command_type x))
                    ∧ Wire.to_dict x !! "message" = Some (VStr (message x))).
  { intros x. unfold Wire.to_dict.
    split; [by rewrite lookup_insert_eq|].
    split; [by rewrite lookup_insert_ne, lookup_insert_eq|].
    by rewrite !lookup_insert_ne, lookup_singleton_eq. }
  destruct (Hl r) as (Ht & Hc & Hm).
  split; [exact Ht|]. split; [exact Hc|]. split; [exact Hm|]. split.
  - unfold Wire.to_dict. rewrite !dom_insert_L, dom_singleton_L. set_solver.
  - intros r' Heq. destruct (Hl r') as (Ht' & Hc' & Hm').
    rewrite Heq in Ht, Hc, Hm.
    destruct r, r'. simpl in *. congruence.
Qed.

End WireFacts.

Lemma to_command_carries_payload_witness :
  wire_type (SetFpsLimitCommand (VInt 15)) = Some "set_fps_limit".
Proof.
  destruct (to_command_carries_payload
              (mkControlMessage "set_fps_limit"
                 (Dict {[ "fps" := VInt 15; "extra" := VNone ]}))
              (SetFpsLimitCommand (VInt 15))) as (Hw & _).
  - vm_compute. reflexivity.
  - exact Hw.
Defined.

Lemma to_command_rejects_witness :
  to_command (mkControlMessage "set_fps_limit" (NotDict "list"))
  = inl (Exc "TypeError" "list indices must be integers or slices, not str")
  ∧ ∃ class_name,
      NotDict "list" = NotDict class_name
      ∧ TypeError_getitem "list" = TypeError_getitem class_name.
Proof.
  split; [vm_compute; reflexivity|].
  destruct (to_command_rejects (mkControlMessage "set_fps_limit" (NotDict "list"))
              (TypeError_getitem "list"))
    as [(Hn & _)|(key & _ & [(d & Hd & _)|(class_name & Hp & He & _)])].
  - vm_compute. reflexivity.
  - exfalso. apply Hn. simpl. rewrite !elem_of_cons. tauto.
  - discriminate Hd.
  - exists class_name. split; [exact Hp | exact He].
Defined.

(** A message whose payload is a list, not a dictionary, and one of
    an unknown type over the same payload. *)
Example to_command_list_payload :
  to_command (mkControlMessage "set_range" (NotDict "list"))
  = inl (Exc "TypeError" "list indices must be integers or slices, not str")
  ∧ to_command (mkControlMessage "reboot" (NotDict "list"))
    = inl (ValueError "Unknown command type: reboot")
  ∧ to_command (mkControlMessage "set_range" (NotDict "NoneType"))
    = inl (Exc "TypeError" "'NoneType' object is not subscriptable").
Proof. repeat split; vm_compute; reflexivity. Qed.

Lemma to_dict_round_trip_witness :
  mkControlResponse "ack" "set_range" "Range set to 2000"
  = mkControlResponse "ack" "set_range" "Range set to 2000".
Proof.
  destruct (to_dict_round_trip (mkControlResponse "ack" "set_range" "Range set to 2000"))
    as (_ & _ & _ & _ & Hinj).
  apply Hinj. reflexivity.
Defined.

(** ** Setters of the runtime parameters *)

Section CaseFacts.

Lemma upper_lower_ascii (c : ascii) : upper_ascii (lower_ascii c) = upper_ascii c.
Proof. destruct c as [[] [] [] [] [] [] [] []]; reflexivity. Qed.

Lemma upper_upper_ascii (c : ascii) : upper_ascii (upper_ascii c) = upper_ascii c.
Proof. destruct c as [[] [] [] [] [] [] [] []]; reflexivity. Qed.

Lemma upper_lower (s : string) : upper (lower s) = upper s.
Proof. induction s as [|c s IH]; simpl; [done|]. by rewrite upper_lower_ascii, IH. Qed.

Lemma upper_upper (s : string) : upper (upper s) = upper s.
Proof. induction s as [|c s IH]; simpl; [done|]. by rewrite upper_upper_ascii, IH. Qed.

End CaseFacts.

Section SetterFacts.
Import FrameProcessing.

(** X4: [set_confidence_threshold] either gets an integer, and then
    stores it clamped into 0..255 (an in-range value as it is) and
    leaves the colormap and the depth range alone, or gets another
    value, and then raises [TypeError] with the processor unchanged. *)
Theorem set_confidence_threshold_total (v : value) (self : DepthFrameProcessor) :
  (∃ t self',
     v = VInt t
     ∧ set_confidence_threshold v self = (inr tt, self')
     ∧ confidence_threshold self' = Z.max 0 (Z.min 255 t)
     ∧ (0 ≤ confidence_threshold self' ≤ 255)%Z
     ∧ ((0 ≤ t ≤ 255)%Z → confidence_threshold self' = t)
     ∧ colormap self' = colormap self
     ∧ max_distance self' = max_distance self)
  ∨ ((∀ t, v ≠ VInt t)
     ∧ ∃ e, set_confidence_threshold v self = (inl e, self)
            ∧ exc_class e = "TypeError").
Proof.
  destruct v as [|t|s].
  - right. split; [done|]. by eexists.
  - left. eexists t, _. split; [done|]. split; [reflexivity|]. simpl.
    repeat split; lia.
  - right. split; [done|]. by eexists.
Qed.

(** X5: the colormap name is matched without regard to case: the
    lower-case and the upper-case spelling of a name have the effect of
    the name itself.  For a string the call never raises and touches
    only the colormap. *)
Theorem set_colormap_ignores_case (name : string) (self : DepthFrameProcessor) :
  set_colormap (VStr (lower name)) self = set_colormap (VStr name) self
  ∧ set_colormap (VStr (upper name)) self = set_colormap (VStr name) self
  ∧ ∃ self', set_colormap (VStr name) self = (inr tt, self')
             ∧ confidence_threshold self' = confidence_threshold self
             ∧ max_distance self' = max_distance self.
Proof.
  unfold set_colormap, Py.bind, lift, call_upper.
  rewrite upper_lower, upper_upper.
  split; [done|]. split; [done|].
  destruct (COLORMAPS !! upper name); by eexists.
Qed.

(** X6: [process_frame] never raises and never changes the processor:
    it returns the rendered image, or, when rendering raises, an
    all-zero image of shape 480x640x3. *)
Theorem process_frame_total {F} (render : DepthFrameProcessor → F → exc + ndarray)
    (frame : F) (self : DepthFrameProcessor) :
  ∃ img,
    process_frame render frame self = (inr img, self)
    ∧ match render self frame with
      | inr rendered => img = rendered
      | inl _ => all_zero img ∧ nd_shape img = [480; 640; 3]
      end.
Proof.
  unfold process_frame, try_except, Py.bind, get, lift.
  destruct (render self frame) as [e|rendered].
  - destruct (np_zeros [480; 640; 3]) as [e'|img] eqn:E.
    + by rewrite np_zeros_ok in E.
    + exists img. split; [done|]. by apply np_zeros_blank.
  - by exists rendered.
Qed.

(** X7: [set_fps_limit] either gets an integer, and then the limit is
    that integer clamped into 5..30, the frame interval is its positive
    reciprocal and the cache, clock and running flag are untouched, or
    gets another value, and then raises [TypeError] with the track
    unchanged. *)
Theorem set_fps_limit_total (v : value) (self : VideoTrack.DepthVideoStreamTrack) :
  (∃ fps self',
     v = VInt fps
     ∧ VideoTrack.set_fps_limit v self = (inr tt, self')
     ∧ VideoTrack.fps_limit self' = Z.max 5 (Z.min 30 fps)
     ∧ (5 ≤ VideoTrack.fps_limit self' ≤ 30)%Z
     ∧ VideoTrack.frame_interval self' = (1 / inject_Z (VideoTrack.fps_limit self'))%Q
     ∧ (0 < VideoTrack.frame_interval self')%Q
     ∧ VideoTrack._current_frame self' = VideoTrack._current_frame self
     ∧ VideoTrack.last_frame_time self' = VideoTrack.last_frame_time self
     ∧ VideoTrack._running self' = VideoTrack._running self)
  ∨ ((∀ fps, v ≠ VInt fps)
     ∧ ∃ e, VideoTrack.set_fps_limit v self = (inl e, self)
            ∧ exc_class e = "TypeError").
Proof.
  destruct v as [|fps|s].
  - right. split; [done|]. by eexists.
  - left. eexists fps, _. split; [done|]. split; [reflexivity|]. simpl.
    split; [done|]. split; [lia|]. split; [done|]. split; [|done].
    assert (Hpos : (0 < Z.max 5 (Z.min 30 fps))%Z) by lia.
    destruct (Z.max 5 (Z.min 30 fps)) as [|p|p]; try lia. reflexivity.
  - right. split; [done|]. by eexists.
Qed.

End SetterFacts.

Lemma set_confidence_threshold_total_witness :
  FrameProcessing.confidence_threshold
    (snd (FrameProcessing.set_confidence_threshold (VInt 40) (FrameProcessing.init 4000)))
  = 40.
Proof.
  destruct (set_confidence_threshold_total (VInt 40) (FrameProcessing.init 4000))
    as [(t & self' & Hv & Hrun & _ & _ & Hin & _)|(Hno & _)].
  - injection Hv as <-. rewrite Hrun. simpl. apply Hin. lia.
  - exfalso. exact (Hno 40 eq_refl).
Defined.

Lemma set_fps_limit_total_witness :
  VideoTrack.fps_limit (snd (VideoTrack.set_fps_limit (VInt 12) (VideoTrack.init 30))) = 12.
Proof.
  destruct (set_fps_limit_total (VInt 12) (VideoTrack.init 30))
    as [(fps & self' & Hv & Hrun & Hfps & _)|(Hno & _)].
  - injection Hv as <-. rewrite Hrun. simpl. rewrite Hfps. reflexivity.
  - exfalso. exact (Hno 12 eq_refl).
Defined.

(** ** The camera wrapper: range, life cycle *)

Section RangeFacts.
Import Camera.
Context {D : Type} `{ArducamSdk D}.

(** X8: [set_range] never raises, whatever the SDK does, and changes
    nothing of the wrapper but the SDK object; on a camera that is not
    open it does not reach the SDK at all. *)
Theorem set_range_is_quiet (v : value) (c : ArducamDepthCamera D) :
  ∃ c',
    Camera.set_range v c = (inr tt, c')
    ∧ _is_open c' = _is_open c
    ∧ _is_started c' = _is_started c
    ∧ _info c' = _info c
    ∧ (_is_open c = false → c' = c).
Proof.
  unfold Camera.set_range, Py.bind, get, try_except, sdk, zoom, ret.
  destruct c as [d i o s]. destruct o; simpl.
  - destruct (setControl_RANGE v d) as [[e|[]] d1]; simpl.
    + by eexists.
    + destruct (getControl_RANGE d1) as [[e|r] d2]; by eexists.
  - by eexists.
Qed.

End RangeFacts.

Section AppDispatchFacts.
Import Camera App.
Context {D : Type} `{ArducamSdk D}.

(** X9: in the application a [SetRangeCommand] is always acknowledged,
    with the requested value in the text: also when the camera is not
    open (nothing is changed then) and when the SDK rejects the value. *)
Theorem app_set_range_always_acks (v : value) (a : AppState D) :
  ∃ a',
    handle_command control_handler (SetRangeCommand v) a
    = (inr (mkControlResponse "ack" "set_range" ("Range set to " +:+ str v)), a')
    ∧ (_is_open (app_camera a) = false → a' = a).
Proof.
  unfold handle_command, try_except, apply_command, Py.bind. simpl.
  change (call TheCamera "set_range" v a)
    with (on_app_camera (Camera.set_range v) a).
  unfold on_app_camera, zoom.
  destruct (set_range_never_raises v (app_camera a)) as (c' & E).
  rewrite E. eexists. split; [reflexivity|].
  intros Hclosed. revert E.
  unfold Camera.set_range, Py.bind, get, ret. rewrite Hclosed. simpl.
  intros [= <-]. by destruct a.
Qed.

(** X10: no command dispatched in the application changes the frame
    processor or the video track: confidence threshold, colormap and
    frame-rate limit stay as they are whatever is sent. *)
Theorem app_dispatch_keeps_processor_and_track (command : ControlCommand) (a : AppState D) :
  ∃ response a',
    handle_command control_handler command a = (inr response, a')
    ∧ app_frame_processor a' = app_frame_processor a
    ∧ app_video_track a' = app_video_track a
    ∧ ((∀ v, command ≠ SetRangeCommand v) → a' = a ∧ resp_type response = "error").
Proof.
  destruct command as [v|v|v|v|n].
  - unfold handle_command, try_except, apply_command, Py.bind. simpl.
    change (call TheCamera "set_range" v a)
      with (on_app_camera (Camera.set_range v) a).
    unfold on_app_camera, zoom.
    destruct (set_range_never_raises v (app_camera a)) as (c' & E).
    rewrite E. eexists _, _. split; [reflexivity|]. simpl.
    split; [done|]. split; [done|]. intros Hne. by destruct (Hne v).
  - eexists _, _. split; [reflexivity|]. done.
  - eexists _, _. split; [reflexivity|]. done.
  - eexists _, _. split; [reflexivity|]. done.
  - eexists _, _. split; [reflexivity|]. done.
Qed.

End AppDispatchFacts.

Lemma set_range_is_quiet_witness :
  snd (Camera.set_range (VInt 2000) (Camera.mkCamera ([] : Fixtures.Script) None false false))
  = Camera.mkCamera [] None false false.
Proof.
  destruct (set_range_is_quiet (VInt 2000)
              (Camera.mkCamera ([] : Fixtures.Script) None false false))
    as (c' & E & _ & _ & _ & Hclosed).
  rewrite E. simpl. apply Hclosed. reflexivity.
Defined.

Lemma app_set_range_always_acks_witness :
  snd (handle_command App.control_handler (SetRangeCommand (VInt 2000))
         (App.init ([] : Fixtures.Script) 4000))
  = App.init [] 4000.
Proof.
  destruct (app_set_range_always_acks (VInt 2000) (App.init ([] : Fixtures.Script) 4000))
    as (a' & E & Hclosed).
  rewrite E. simpl. apply Hclosed. reflexivity.
Defined.

Lemma app_dispatch_keeps_processor_and_track_witness :
  snd (handle_command App.control_handler (SetConfidenceCommand (VInt 80))
         (App.init ([] : Fixtures.Script) 4000))
  = App.init [] 4000.
Proof.
  destruct (app_dispatch_keeps_processor_and_track (SetConfidenceCommand (VInt 80))
              (App.init ([] : Fixtures.Script) 4000))
    as (response & a' & E & _ & _ & Hother).
  rewrite E. simpl. apply Hother. discriminate.
Defined.

(** Split on every scrutinee of the goal, innermost first. *)
Ltac split_matches :=
  repeat (simpl in *;
          match goal with
          | |- context [match ?x with _ => _ end] =>
              lazymatch x with
              | context [match _ with _ => _ end] => fail
              | _ => destruct x eqn:?
              end
          end).

Section LifecycleFacts.
Import Camera Lifecycle.
Context {D : Type} `{ArducamSdk D} `{ArducamSdkLifecycle D}.
Variable args : CameraArgs.

Lemma after_keeps_started_implies_open (c : ArducamDepthCamera D) (call : Call) :
  (_is_started c = true → _is_open c = true) →
  _is_started (after args c call) = true → _is_open (after args c call) = true.
Proof.
  destruct c as [d i o s]. destruct call; simpl;
    unfold open, start, stop, close, request_frame, release_frame,
      Camera.set_range, get_camera_info, stop, set_is_open, set_is_started,
      set_info, sdk;
    run_py; split_matches; simpl in *; intros; simplify_eq; auto;
    by destruct o.
Qed.

(** X11: whatever calls are made on the camera object, in any order and
    whether they return or raise, a camera marked started is marked
    open. *)
Theorem camera_started_implies_open (calls : list Call) (c : ArducamDepthCamera D) :
  (_is_started c = true → _is_open c = true) →
  _is_started (foldl (after args) c calls) = true →
  _is_open (foldl (after args) c calls) = true.
Proof.
  revert c. induction calls as [|call calls IH]; intros c Hinv; simpl.
  - exact Hinv.
  - apply IH. by apply after_keeps_started_implies_open.
Qed.

End LifecycleFacts.

Section LifecycleResults.
Import Camera Lifecycle.
Context {D : Type} `{ArducamSdk D} `{ArducamSdkLifecycle D}.
Variable args : CameraArgs.

Ltac unfold_lifecycle :=
  unfold initialize_camera, open, start, close, stop, Camera.set_range,
    get_camera_info, set_is_open, set_is_started, set_info, sdk.

(** X12: [start] never raises.  It returns [True] only on an open
    camera, and then the camera is marked started and holds the SDK's
    camera information, which [get_camera_info] returns from then on;
    on a camera that is not open it returns [False] and touches
    nothing. *)
Theorem start_reports_readiness (c : ArducamDepthCamera D) :
  ∃ b c',
    start c = (inr b, c')
    ∧ (b = true →
       _is_open c = true ∧ _is_open c' = true ∧ _is_started c' = true
       ∧ ∃ info, _info c' = Some info ∧ get_camera_info c' = (inr info, c'))
    ∧ (_is_open c = false → b = false ∧ c' = c).
Proof.
  destruct c as [d i o s]. unfold_lifecycle. run_py. split_matches.
  all: eexists _, _; (split; [reflexivity|]); cbn [_is_open _is_started _info].
  all: split; intros Hx; try discriminate Hx; subst; try done.
  all: destruct o; try discriminate; repeat split; eexists; split; reflexivity.
Qed.

(** X13: when the SDK starts the stream but then fails to report the
    camera information, [start] returns [False] although it has already
    marked the camera started; the stored information is the old one. *)
Theorem start_fails_after_marking_started (c : ArducamDepthCamera D) d1 d2 e :
  _is_open c = true →
  sdk_start (_camera c) = (inr 0, d1) →
  sdk_getCameraInfo d1 = (inl e, d2) →
  start c = (inr false, mkCamera d2 (_info c) true true).
Proof.
  destruct c as [d i o s]. simpl. intros -> Hs Hi.
  unfold_lifecycle. run_py. simpl. rewrite Hs. simpl. by rewrite Hi.
Qed.

(** X14: when [close] returns, the camera is neither open nor started,
    and closing it again returns without reaching the SDK. *)
Theorem close_is_final (c c' : ArducamDepthCamera D) :
  close c = (inr tt, c') →
  _is_open c' = false ∧ _is_started c' = false ∧ _info c' = _info c
  ∧ close c' = (inr tt, c').
Proof.
  destruct c as [d i o s]. unfold_lifecycle. run_py. split_matches.
  all: intros [= <-]; cbn; done.
Qed.

(** X15: [initialize_camera] on a camera that is neither open nor
    started: [True] means the camera is open and started and holds its
    information; [False] means it is neither open nor started. *)
Theorem initialize_camera_outcome (max_distance : Z) (c c' : ArducamDepthCamera D) (b : bool) :
  _is_open c = false → _is_started c = false →
  initialize_camera args max_distance c = (inr b, c') →
  if b then _is_open c' = true ∧ _is_started c' = true ∧ is_Some (_info c')
  else _is_open c' = false ∧ _is_started c' = false.
Proof.
  destruct c as [d i o s]. simpl. intros -> ->.
  unfold_lifecycle. run_py. split_matches.
  all: intros [=]; subst; cbn; eauto.
Qed.

End LifecycleResults.

(** The life cycle at concrete inputs, on the scripted SDK. *)
Lemma camera_started_implies_open_witness :
  Camera._is_open
    (foldl (Lifecycle.after LifecycleFixtures.csi)
           (Lifecycle.new LifecycleFixtures.good_device)
           [Lifecycle.CallStart; Lifecycle.CallOpen; Lifecycle.CallStart;
            Lifecycle.CallRequestFrame 2000])
  = true.
Proof.
  apply (camera_started_implies_open LifecycleFixtures.csi).
  - discriminate.
  - vm_compute. reflexivity.
Defined.

Lemma start_reports_readiness_witness :
  let c := Camera.mkCamera LifecycleFixtures.good_device None true false in
  ∃ c', Lifecycle.start c = (inr true, c')
        ∧ Camera._info c' = Some LifecycleFixtures.vga.
Proof.
  intros c.
  destruct (start_reports_readiness c) as (b & c' & E & Htrue & _).
  assert (Hb : b = true) by (vm_compute in E; by injection E as <- _).
  destruct (Htrue Hb) as (_ & _ & _ & info & Hinfo & _).
  exists c'. subst b. split; [exact E|].
  vm_compute in E. injection E as <-. reflexivity.
Defined.

Lemma start_fails_after_marking_started_witness :
  let c := Camera.mkCamera LifecycleFixtures.no_info_device None true false in
  fst (Lifecycle.start c) = inr false
  ∧ Camera._is_started (snd (Lifecycle.start c)) = true.
Proof.
  intros c.
  erewrite (start_fails_after_marking_started c); [done|reflexivity..].
Defined.

Lemma close_is_final_witness :
  let c := Camera.mkCamera LifecycleFixtures.good_device None true true in
  Camera._is_open (snd (Lifecycle.close c)) = false.
Proof.
  intros c.
  destruct (close_is_final c (snd (Lifecycle.close c))) as (Ho & _).
  - vm_compute. reflexivity.
  - exact Ho.
Defined.

Lemma initialize_camera_outcome_witness :
  let c := Lifecycle.new LifecycleFixtures.good_device in
  let c' := snd (Lifecycle.initialize_camera LifecycleFixtures.csi 4000 c) in
  Camera._is_open c' = true ∧ Camera._is_started c' = true ∧ is_Some (Camera._info c').
Proof.
  intros c c'.
  apply (initialize_camera_outcome LifecycleFixtures.csi 4000 c c' true);
    vm_compute; reflexivity.
Defined.

(** A device that cannot report its information is closed again by
    [initialize_camera]. *)
Example initialize_camera_without_info :
  let c := Lifecycle.new LifecycleFixtures.no_info_device in
  fst (Lifecycle.initialize_camera LifecycleFixtures.csi 4000 c) = inr false
  ∧ LifecycleFixtures.calls
      (Camera._camera (snd (Lifecycle.initialize_camera LifecycleFixtures.csi 4000 c)))
    = ["open"; "start"; "getCameraInfo"; "stop"; "close"].
Proof. split; vm_compute; reflexivity. Qed.

(** ** The tick: stopped track, rendered frames, failed ticks *)

Section TickFacts.
Import Camera VideoTrack TickFixtures.
Context {D P : Type} `{ArducamSdk D}.
Variable process_frame : ArducamDepthFrame → M P ndarray.
Variable from_ndarray_rejects : ndarray → Z → exc.


Lemma recv_running (current_time : Q) (w : World D P) :
  _running (track w) = true →
  _current_frame (track w) = None →
  recv process_frame from_ndarray_rejects current_time w
  = produce process_frame from_ndarray_rejects current_time w.
Proof.
  intros Hrun Hc. unfold recv.
  unfold Py.bind at 1, on_track at 1, zoom, get. simpl.
  assert (Hw : mkWorld (track w) (camera w) (frame_processor w) = w)
    by (by destruct w).
  rewrite Hw, Hrun, Hc. simpl. by destruct (Qlt_le_dec _ _).
Qed.

(** X16: on a track that is not running a tick builds an all-zero
    image of shape 480x640x3 and raises the exception of the library
    call it hands the image to; it touches neither the camera, nor the
    processor, nor the cache. *)
Theorem recv_stopped_track_raises (current_time : Q) (w : World D P) :
  _running (track w) = false →
  ∃ img pts w',
    recv process_frame from_ndarray_rejects current_time w
    = (inl (from_ndarray_rejects img pts), w')
    ∧ all_zero img
    ∧ nd_shape img = [480; 640; 3]
    ∧ camera w' = camera w
    ∧ frame_processor w' = frame_processor w
    ∧ same_cache (track w') (track w).
Proof.
  intros Hrun. unfold recv.
  unfold Py.bind at 1, on_track at 1, zoom, get. simpl.
  rewrite Hrun. simpl.
  unfold Py.bind, on_track, zoom, next_timestamp, get, put, lift, ret, from_ndarray.
  cbn beta iota zeta.
  destruct (np_zeros [480; 640; 3]) as [e|img] eqn:E.
  - by rewrite np_zeros_ok in E.
  - destruct (np_zeros_blank _ _ E) as (Hz & Hs).
    eexists _, _, _. split; [reflexivity|]. simpl. rewrite Hrun. done.
Qed.

(** X18: on a running track with nothing cached, a tick whose camera
    delivers a depth frame that the processor renders still raises:
    the library call inside the [try] block fails after the image was
    cached and the frame released, the handler releases the frame a
    second time, and the call on the cached image fails again.  The
    rendered image stays cached, stamped with the time of the tick. *)
Theorem rendered_tick_raises_after_caching
    (t : Q) (w : World D P) frame c1 img p1 :
  _running (track w) = true →
  _current_frame (track w) = None →
  request_frame 2000 (camera w) = (inr (Some frame), c1) →
  process_frame frame (frame_processor w) = (inr img, p1) →
  ∃ pts w1,
    recv process_frame from_ndarray_rejects t w
    = (inl (from_ndarray_rejects img pts), w1)
    ∧ _current_frame (track w1) = Some img
    ∧ last_frame_time (track w1) = t
    ∧ frame_processor w1 = p1
    ∧ camera w1 = snd (release_frame frame (snd (release_frame frame c1))).
Proof.
  intros Hrun Hc Er Ep. rewrite (recv_running t w Hrun Hc).
  destruct w as [tr c p]. simpl in *.
  unfold produce.
  unfold Py.bind at 1, on_camera at 1, zoom. simpl. rewrite Er.
  unfold Py.bind at 1, try_except at 1.
  unfold render_and_cache.
  unfold Py.bind at 1 2, on_processor at 1, zoom. simpl. rewrite Ep.
  unfold Py.bind at 1, on_track at 1, zoom, cache_frame, modify. simpl.
  unfold Py.bind at 1, on_camera at 1, zoom. simpl.
  destruct (release_frame_never_raises frame c1) as (c2 & Erel & _).
  rewrite Erel.
  unfold Py.bind at 1 2, on_track at 1, zoom, next_timestamp, get, put, ret,
    lift, from_ndarray. simpl.
  unfold on_camera at 1, zoom. simpl.
  destruct (release_frame_never_raises frame c2) as (c3 & Erel' & _).
  rewrite Erel'.
  unfold fallback, Py.bind, on_track, zoom, next_timestamp, get, put, ret, lift,
    from_ndarray. simpl.
  eexists _, _. split; [reflexivity|]. done.
Qed.



End TickFacts.

(** The tick at concrete inputs. *)
Lemma recv_stopped_track_raises_witness :
  ∃ img pts w',
    VideoTrack.recv Fixtures.failing_processor Fixtures.unknown_format 1
      TickFixtures.stopped_world
    = (inl (Fixtures.unknown_format img pts), w')
    ∧ nd_shape img = [480; 640; 3]
    ∧ VideoTrack.camera w' = VideoTrack.camera TickFixtures.stopped_world.
Proof.
  destruct (recv_stopped_track_raises Fixtures.failing_processor
              Fixtures.unknown_format 1 TickFixtures.stopped_world)
    as (img & pts & w' & E & _ & Hs & Hc & _).
  - reflexivity.
  - exists img, pts, w'. split; [exact E|]. split; [exact Hs | exact Hc].
Defined.

Lemma rendered_tick_raises_after_caching_witness :
  ∃ pts w1,
    VideoTrack.recv TickFixtures.constant_processor Fixtures.unknown_format 1
      TickFixtures.fresh_world
    = (inl (Fixtures.unknown_format (Fixtures.tiny 3) pts), w1)
    ∧ VideoTrack._current_frame (VideoTrack.track w1) = Some (Fixtures.tiny 3)
    ∧ TickFixtures.released (Camera._camera (VideoTrack.camera w1)) = 2%nat.
Proof.
  destruct (rendered_tick_raises_after_caching TickFixtures.constant_processor
              Fixtures.unknown_format 1 TickFixtures.fresh_world
              (Camera.mkArducamDepthFrame (Fixtures.tiny 7) (Fixtures.tiny 9)
                 (Camera.DepthData (Fixtures.tiny 7) (Fixtures.tiny 9)))
              (Camera.mkCamera (TickFixtures.mkCounting 0)
                 (Some (Camera.mkCameraInfo 2 1 "VGA")) true true)
              (Fixtures.tiny 3) tt)
    as (pts & w1 & E & Hc & _ & _ & Hcam).
  - reflexivity.
  - reflexivity.
  - vm_compute. reflexivity.
  - reflexivity.
  - exists pts, w1. split; [exact E|]. split; [exact Hc|].
    rewrite Hcam. vm_compute. reflexivity.
Defined.


(** ** The signaling server: disconnects, traces, notifications, relay *)

Section RouterFacts.
Import Signaling Relay.

(** X20: unregistering a client removes it from the registry and from
    every room, keeps every other membership and every room entry,
    sends nothing, and doing it again changes nothing. *)
Theorem unregister_scrubs_client (c : string) (self : SignalingServer) :
  c ≠ "" →
  (c ∉ dom (clients (unregister c self)))
  ∧ (∀ room_id members, rooms (unregister c self) !! room_id = Some members → c ∉ members)
  ∧ (∀ room_id c', c' ≠ c →
       (∃ members, rooms (unregister c self) !! room_id = Some members ∧ c' ∈ members)
       ↔ (∃ members, rooms self !! room_id = Some members ∧ c' ∈ members))
  ∧ dom (rooms (unregister c self)) = dom (rooms self)
  ∧ outbox (unregister c self) = outbox self
  ∧ unregister c (unregister c self) = unregister c self.
Proof.
  intros Hc. unfold unregister. rewrite !decide_False by done. simpl.
  split.
  { rewrite dom_delete_L, elem_of_difference, elem_of_singleton. by intros [_ Hn]. }
  split.
  { intros r m. rewrite lookup_fmap.
    destruct (rooms self !! r) as [m0|]; simpl; [|done].
    intros [= <-]. rewrite elem_of_difference, elem_of_singleton. by intros [_ Hn]. }
  split.
  { intros r c' Hne. rewrite lookup_fmap. split.
    - intros (m & Hl & Hin). destruct (rooms self !! r) as [m0|]; simpl in Hl; [|done].
      injection Hl as <-. exists m0. split; [done|].
      by apply elem_of_difference in Hin as [? _].
    - intros (m & Hl & Hin). rewrite Hl. simpl. eexists. split; [done|].
      rewrite elem_of_difference, elem_of_singleton. done. }
  split; [by rewrite dom_fmap_L|].
  split; [done|].
  f_equal.
  - by rewrite delete_delete_eq.
  - rewrite <- map_fmap_compose. apply map_fmap_ext. intros r m _. simpl.
    apply set_eq. intros x. rewrite !elem_of_difference. tauto.
Qed.

Lemma step_keeps_members_registered (self : SignalingServer) (op : Op) :
  members_registered self → enabled self op → members_registered (step self op).
Proof.
  intros Hinv Hen. destruct op as [c ws|c r|c r|c]; simpl.
  - intros r m c' Hl Hin. simpl in *. rewrite dom_insert_L.
    apply elem_of_union_r. by eapply Hinv.
  - intros r' m c'. unfold join_room. simpl.
    destruct (rooms self !! r) as [m0|] eqn:Er; simpl.
    + destruct (decide (r = r')) as [<-|Hne].
      * rewrite lookup_alter_eq, Er. simpl. intros [= <-] [Hin|Hin]%elem_of_union.
        -- by eapply Hinv.
        -- apply elem_of_singleton in Hin. by subst.
      * rewrite lookup_alter_ne by done. apply Hinv.
    + destruct (decide (r = r')) as [<-|Hne].
      * rewrite lookup_alter_eq, lookup_insert_eq. simpl.
        intros [= <-] [Hin|Hin]%elem_of_union; [set_solver|].
        apply elem_of_singleton in Hin. by subst.
      * rewrite lookup_alter_ne, lookup_insert_ne by done. apply Hinv.
  - intros r' m c'. unfold leave_room.
    destruct (rooms self !! r) as [m0|] eqn:Er; [|apply Hinv].
    simpl. case_decide as Hempty; simpl.
    + destruct (decide (r = r')) as [<-|Hne].
      * by rewrite lookup_delete_eq.
      * rewrite lookup_delete_ne, lookup_alter_ne by done. apply Hinv.
    + destruct (decide (r = r')) as [<-|Hne].
      * rewrite lookup_alter_eq, Er. simpl. intros [= <-] Hin.
        apply (Hinv r m0 c' Er). by apply elem_of_difference in Hin as [? _].
      * rewrite lookup_alter_ne by done. apply Hinv.
  - unfold unregister. case_decide; [done|].
    intros r m c'. simpl. rewrite lookup_fmap.
    destruct (rooms self !! r) as [m0|] eqn:Er; simpl; [|done].
    intros [= <-] Hin. rewrite dom_delete_L.
    apply elem_of_difference in Hin as [Hin Hne].
    apply elem_of_difference. split; [by eapply Hinv|done].
Qed.

(** X21: over every trace of connects, joins, leaves and disconnects in
    which a client joins and leaves only while it is registered, every
    member of every room is a registered client: a disconnected client
    is never left behind in a room. *)
Theorem rooms_hold_only_registered_clients (ops : list Op) (self : SignalingServer) :
  members_registered self → admissible ops self → members_registered (run ops self).
Proof.
  revert self. induction ops as [|op ops IH]; intros self Hinv Hadm; simpl.
  - exact Hinv.
  - destruct Hadm as [Hen Hadm]. apply IH; [|exact Hadm].
    by apply step_keeps_members_registered.
Qed.

(** X22: over every trace without a disconnect, every registered room
    has at least one member. *)
Theorem rooms_nonempty_without_disconnect (ops : list Op) (self : SignalingServer) :
  rooms_nonempty self →
  forallb (λ op, negb (is_disconnect op)) ops = true →
  rooms_nonempty (run ops self).
Proof.
  revert self. induction ops as [|op ops IH]; intros self Hinv Hops; simpl.
  - exact Hinv.
  - simpl in Hops. apply andb_prop in Hops as [Hop Hops].
    apply IH; [|exact Hops].
    destruct op as [c ws|c r|c r|c]; simpl.
    + by apply register_nonempty.
    + by apply join_room_nonempty.
    + by apply leave_room_nonempty.
    + discriminate.
Qed.

(** X23: a client that joins a room it is not in and then leaves it
    puts the room registry back as it was: a room created by the join
    is removed again, an existing room keeps its members. *)
Theorem leave_after_join_restores_rooms (c r : string) (self : SignalingServer) :
  (∀ members, rooms self !! r = Some members → (c ∉ members) ∧ members ≠ ∅) →
  rooms (leave_room c r (join_room c r self)) = rooms self.
Proof.
  intros Hpre. unfold leave_room, join_room. simpl.
  destruct (rooms self !! r) as [m|] eqn:Er; simpl.
  - destruct (Hpre m eq_refl) as [Hc Hne].
    rewrite lookup_alter_eq, Er. simpl.
    assert (Hm : (m ∪ {[c]}) ∖ {[c]} = m).
    { apply set_eq. intros x.
      rewrite elem_of_difference, elem_of_union, elem_of_singleton.
      split; [by intros [[?|?] ?]|]. intros Hx. split; [by left|]. by intros ->. }
    rewrite decide_False.
    2: { rewrite !lookup_alter_eq, Er. simpl. rewrite Hm. congruence. }
    simpl. apply map_eq. intros r'. destruct (decide (r = r')) as [<-|?].
    + rewrite !lookup_alter_eq, Er. simpl. by rewrite Hm.
    + by rewrite !lookup_alter_ne.
  - rewrite lookup_alter_eq, lookup_insert_eq. simpl.
    rewrite decide_True.
    2: { rewrite !lookup_alter_eq, lookup_insert_eq. simpl. f_equal.
         apply set_eq. intros x.
         rewrite elem_of_difference, elem_of_union, elem_of_singleton.
         split; [intros [[Hx|?] ?]; [by apply not_elem_of_empty in Hx|done]|].
         by intros Hx%not_elem_of_empty. }
    simpl. apply map_eq. intros r'. destruct (decide (r = r')) as [<-|?].
    + by rewrite lookup_delete_eq.
    + by rewrite lookup_delete_ne, !lookup_alter_ne, lookup_insert_ne.
Qed.

Lemma NoDup_recipients (self : SignalingServer) room_id exclude :
  NoDup (recipients self room_id exclude).
Proof.
  unfold recipients. destruct (rooms self !! room_id); [|constructor].
  apply NoDup_filter, NoDup_elements.
Qed.

(** X24: a join appends to the outbox one [peer_joined] message for each
    registered client that was already a member of the room, the joiner
    excepted, and nothing else; no client gets it twice. *)
Theorem join_notifies_other_members (c r : string) (self : SignalingServer) :
  ∃ sends,
    outbox (join_room c r self) = (outbox self ++ sends)%list
    ∧ NoDup sends.*1
    ∧ ∀ c' msg, (c', msg) ∈ sends ↔
        msg = peer_joined c ∧ c' ≠ c ∧ c' ∈ dom (clients self)
        ∧ ∃ members, rooms self !! r = Some members ∧ c' ∈ members.
Proof.
  assert (Hjoined : ∃ self2,
            join_room c r self
            = broadcast_to_room r (peer_joined c) (Some c) self2
            ∧ clients self2 = clients self
            ∧ outbox self2 = outbox self
            ∧ rooms self2 !! r = Some (default ∅ (rooms self !! r) ∪ {[c]})).
  { unfold join_room. eexists. split; [reflexivity|].
    destruct (rooms self !! r) as [m0|] eqn:Er; simpl.
    - by rewrite lookup_alter_eq, Er.
    - by rewrite lookup_alter_eq, lookup_insert_eq. }
  destruct Hjoined as (self2 & -> & Hcl & Hout & Hroom).
  unfold broadcast_to_room. simpl. rewrite Hout.
  eexists. split; [reflexivity|]. split.
  { rewrite <- list_fmap_compose. simpl. rewrite list_fmap_id. apply NoDup_recipients. }
  intros c' msg. rewrite list_elem_of_fmap. split.
  - intros (c0 & [= -> ->] & Hin).
    apply elem_of_recipients in Hin as (m & Hl & Hm & Hex & Hd).
    rewrite Hroom in Hl. injection Hl as <-. rewrite Hcl in Hd.
    assert (Hne : c0 ≠ c) by congruence.
    split; [done|]. split; [done|]. split; [done|].
    apply elem_of_union in Hm as [Hm|Hs].
    + destruct (rooms self !! r) as [m0|]; simpl in Hm.
      * by exists m0.
      * by apply not_elem_of_empty in Hm.
    + by apply elem_of_singleton in Hs.
  - intros (-> & Hne & Hd & m & Hl & Hm). exists c'. split; [done|].
    apply elem_of_recipients. eexists. split; [exact Hroom|].
    rewrite Hl, Hcl. simpl.
    split; [by apply elem_of_union_l|]. split; [congruence|done].
Qed.

(** X25: a relayed message is the client's message with its [sender]
    field set to the true sender, whatever the client put there; the
    relay changes neither rooms nor registry; and the sender gets its
    own message back only by naming itself as the target. *)
Theorem relay_stamps_true_sender (sender_id : string) (message : gmap string value)
    (self : SignalingServer) :
  ∃ sends,
    relay_message sender_id message self
    = mkServer (clients self) (rooms self) (outbox self ++ sends)%list
    ∧ ∀ c msg, (c, msg) ∈ sends →
        msg = with_sender sender_id message
        ∧ msg !! "sender" = Some (VStr sender_id)
        ∧ c ∈ dom (clients self)
        ∧ (c = sender_id → message !! "target" = Some (VStr sender_id)).
Proof.
  assert (Hs : with_sender sender_id message !! "sender" = Some (VStr sender_id))
    by apply lookup_insert_eq.
  assert (Hb : ∀ room_id c msg,
             (c, msg) ∈ ((λ client_id, (client_id, with_sender sender_id message))
                           <$> recipients self room_id (Some sender_id)) →
             msg = with_sender sender_id message
             ∧ msg !! "sender" = Some (VStr sender_id)
             ∧ c ∈ dom (clients self)
             ∧ (c = sender_id → message !! "target" = Some (VStr sender_id))).
  { intros room_id c msg (c0 & [= -> ->] & Hin)%list_elem_of_fmap.
    apply elem_of_recipients in Hin as (m & _ & _ & Hex & Hd).
    split; [done|]. split; [done|]. split; [done|]. intros ->. by destruct Hex. }
  unfold relay_message, registered_target.
  destruct (message !! "target") as [[|n|t]|] eqn:Et.
  4: destruct (message !! "room") as [[|n|room_id]|] eqn:Er.
  1, 2, 4, 5, 6, 7: destruct (message !! "room") as [[|n'|room_id']|] eqn:Er'.
  all: try (unfold broadcast_to_room; eexists; split; [reflexivity|]; apply Hb).
  all: try (exists []; split; [destruct self; simpl; by rewrite app_nil_r|];
            intros c msg Hin; by apply elem_of_nil in Hin).
  case_decide as Hreg.
  - eexists. split; [reflexivity|]. intros c msg Hin.
    apply list_elem_of_singleton in Hin as [= -> ->].
    split; [done|]. split; [done|]. split; [by destruct Hreg|]. by intros <-.
  - destruct (message !! "room") as [[|n'|room_id']|] eqn:Er'.
    all: try (unfold broadcast_to_room; eexists; split; [reflexivity|]; apply Hb).
    all: exists []; split; [destruct self; simpl; by rewrite app_nil_r|];
           intros c msg Hin; by apply elem_of_nil in Hin.
Qed.

End RouterFacts.

(** The signaling server at concrete inputs. *)
Lemma unregister_scrubs_client_witness :
  "a" ∉ dom (Signaling.clients (Signaling.unregister "a" Fixtures.two_in_room)).
Proof.
  destruct (unregister_scrubs_client "a" Fixtures.two_in_room) as (Hgone & _).
  - discriminate.
  - exact Hgone.
Defined.

Lemma rooms_hold_only_registered_clients_witness :
  Relay.members_registered
    (Signaling.run [Signaling.Connect "a" 1; Signaling.Join "a" "r";
                    Signaling.Connect "b" 2; Signaling.Join "b" "r";
                    Signaling.Disconnect "a"] Signaling.init).
Proof.
  apply rooms_hold_only_registered_clients.
  - intros room_id members c Hl. vm_compute in Hl. discriminate.
  - simpl. repeat split; try discriminate.
    all: apply (bool_decide_unpack _); vm_compute; reflexivity.
Defined.

Lemma rooms_nonempty_without_disconnect_witness :
  Signaling.rooms_nonempty
    (Signaling.run [Signaling.Connect "a" 1; Signaling.Join "a" "r";
                    Signaling.Leave "a" "r"; Signaling.Join "a" "s"] Signaling.init).
Proof.
  apply rooms_nonempty_without_disconnect.
  - intros room_id members Hl. vm_compute in Hl. discriminate.
  - reflexivity.
Defined.

Lemma leave_after_join_restores_rooms_witness :
  Signaling.rooms
    (Signaling.leave_room "a" "r" (Signaling.join_room "a" "r" Signaling.init))
  = Signaling.rooms Signaling.init.
Proof.
  apply leave_after_join_restores_rooms.
  intros members Hl. vm_compute in Hl. discriminate.
Defined.

Lemma join_notifies_other_members_witness :
  ∃ sends,
    Signaling.outbox (Signaling.join_room "a" "r" Fixtures.two_in_room)
    = (Signaling.outbox Fixtures.two_in_room ++ sends)%list
    ∧ ("b", Signaling.peer_joined "a") ∈ sends.
Proof.
  destruct (join_notifies_other_members "a" "r" Fixtures.two_in_room)
    as (sends & E & _ & Hiff).
  exists sends. split; [exact E|].
  apply Hiff. split; [reflexivity|]. split; [discriminate|].
  split; [apply (bool_decide_unpack _); vm_compute; reflexivity|].
  exists {[ "a"; "b" ]}. split; [vm_compute; reflexivity|].
  apply (bool_decide_unpack _). vm_compute. reflexivity.
Defined.

Lemma relay_stamps_true_sender_witness :
  let message : gmap string value :=
    {[ "type" := VStr "offer"; "room" := VStr "r"; "sender" := VStr "b" ]} in
  ∃ sends,
    Signaling.outbox (Relay.relay_message "a" message Fixtures.two_in_room) = sends
    ∧ ∀ c msg, (c, msg) ∈ sends → msg !! "sender" = Some (VStr "a").
Proof.
  intros message.
  destruct (relay_stamps_true_sender "a" message Fixtures.two_in_room)
    as (sends & E & Hall).
  exists sends. split; [by rewrite E|].
  intros c msg Hin. by destruct (Hall c msg Hin) as (_ & Hs & _).
Defined.

(** The relay replaces a forged [sender] and skips the sender itself. *)
Example relay_to_room :
  Signaling.outbox
    (Relay.relay_message "a"
       {[ "type" := VStr "offer"; "room" := VStr "r"; "sender" := VStr "b" ]}
       Fixtures.two_in_room)
  = [("b", {[ "type" := VStr "offer"; "room" := VStr "r"; "sender" := VStr "a" ]})].
Proof. vm_compute. reflexivity. Qed.

(** ** The peer manager: removal, shutdown, offers *)

Section SessionFacts.
Import PeerManager Shutdown.
Variable accept_remote : value → value → option exc.
Variable create_answer : value → exc + string.
Variable accept_local : string → exc + string.
Variable open_channel : string → option exc.

(** X26: [remove_peer] never raises; afterwards the peer has no entry
    and the connection it referred to is closed, the entries and
    connections of all other peers are as before, and removing the peer
    again changes nothing. *)
Theorem remove_peer_is_idempotent (self : PeerManager) (peer_id : string) :
  ∃ self1,
    remove_peer peer_id self = (inr tt, self1)
    ∧ peers self1 !! peer_id = None
    ∧ (∀ pc, peers self !! peer_id = Some pc → ¬ is_open self1 pc)
    ∧ (∀ id, id ≠ peer_id → peers self1 !! id = peers self !! id)
    ∧ (∀ pc, peers self !! peer_id ≠ Some pc → heap self1 !! pc = heap self !! pc)
    ∧ remove_peer peer_id self1 = (inr tt, self1).
Proof.
  unfold remove_peer, close, update_pc. run_py.
  destruct (peers self !! peer_id) as [pc|] eqn:Ep; simpl.
  - eexists. split; [reflexivity|]. simpl.
    split; [by rewrite lookup_delete_eq|]. split.
    { intros pc' [= <-] (o & Hl & Ho). simpl in Hl.
      rewrite list_lookup_alter_eq in Hl.
      destruct (heap self !! pc); simpl in Hl; [|done].
      injection Hl as <-. discriminate. }
    split; [intros id Hne; by rewrite lookup_delete_ne|].
    split.
    { intros pc' Hne. apply list_lookup_alter_ne. congruence. }
    by rewrite lookup_delete_eq.
  - exists self. rewrite Ep. split; [done|]. split; [done|].
    split; [done|]. done.
Qed.

Lemma close_all_run (pcs : list nat) (self : PeerManager) :
  ∃ self',
    close_all pcs self = (inr tt, self')
    ∧ peers self' = peers self
    ∧ ∀ pc, heap self' !! pc
            = if decide (pc ∈ pcs) then closed <$> heap self !! pc else heap self !! pc.
Proof.
  revert self. induction pcs as [|a pcs IH]; intros self.
  - exists self. split; [done|]. split; [done|]. intros pc.
    rewrite decide_False; [done|]. apply not_elem_of_nil.
  - simpl. unfold Py.bind at 1. unfold close at 1, update_pc, modify.
    set (self1 := mkManager _ _).
    destruct (IH self1) as (self' & E & Hp & Hh).
    rewrite E. exists self'. split; [done|]. split; [done|].
    intros pc. rewrite Hh. subst self1. simpl.
    destruct (decide (pc = a)) as [->|Hne].
    + rewrite list_lookup_alter_eq.
      rewrite (decide_True (P := a ∈ a :: pcs)) by (by left).
      destruct (heap self !! a) as [o|]; simpl; by case_decide.
    + rewrite list_lookup_alter_ne by done.
      destruct (decide (pc ∈ pcs)) as [Hin|Hnin].
      * rewrite decide_True; [done|]. by right.
      * rewrite decide_False; [done|]. rewrite not_elem_of_cons. done.
Qed.

(** X27: [stop] never raises; afterwards the track is stopped, [peers]
    is empty and every connection an entry referred to is closed.  A
    connection object no entry refers to is left exactly as it was. *)
Theorem stop_closes_registered_connections
    (t : VideoTrack.DepthVideoStreamTrack) (self : PeerManager) :
  ∃ t' self',
    stop (t, self) = (inr tt, (t', self'))
    ∧ VideoTrack._running t' = false
    ∧ peers self' = ∅
    ∧ (∀ id pc, peers self !! id = Some pc → ¬ is_open self' pc)
    ∧ (∀ pc, (∀ id, peers self !! id ≠ Some pc) → heap self' !! pc = heap self !! pc).
Proof.
  unfold stop.
  destruct (close_all_run (snd <$> map_to_list (peers self)) self)
    as (self1 & E & Hp & Hh).
  unfold Py.bind at 1, zoom at 1, VideoTrack.stop, modify. simpl.
  unfold zoom, Py.bind at 1, get, Py.bind, modify. simpl. rewrite E.
  eexists _, _. split; [reflexivity|]. simpl.
  split; [done|]. split; [done|].
  assert (Hin : ∀ pc, pc ∈ snd <$> map_to_list (peers self)
                      ↔ ∃ id, peers self !! id = Some pc).
  { intros pc. rewrite list_elem_of_fmap. split.
    - intros ([id pc'] & -> & Hl). exists id. by apply elem_of_map_to_list.
    - intros (id & Hl). exists (id, pc). split; [done|]. by apply elem_of_map_to_list. }
  split.
  - intros id pc Hl (o & Ho & Hopen). rewrite Hh in Ho.
    rewrite decide_True in Ho by (apply Hin; eauto).
    destruct (heap self !! pc); simpl in Ho; [|done].
    injection Ho as <-. discriminate.
  - intros pc Hfree. rewrite Hh. rewrite decide_False; [done|].
    intros (id & Hl)%Hin. by apply (Hfree id).
Qed.

(** X28: [handle_offer] registers a new, open connection with the video
    track under the sender's id before it negotiates, and then makes
    four calls on it that can each raise: [setRemoteDescription],
    [createAnswer], [setLocalDescription] and [createDataChannel].
    When all four succeed, the response is addressed to the sender and
    carries the SDP of the connection's local description (not the
    text [createAnswer] returned), and the connection holds both
    descriptions and the [controls] channel.  When one of them raises,
    that exception is raised and the connection stays registered and
    open, set up as far as the calls before it went. *)
Theorem handle_offer_outcome (self : PeerManager) (sender_id : string)
    (offer : gmap string value) :
  let pc := length (heap self) in
  let type := dict_get offer "type" in
  let sdp := dict_get offer "sdp" in
  ∃ result self',
    handle_offer accept_remote create_answer accept_local open_channel
      sender_id offer self = (result, self')
    ∧ peers self' !! sender_id = Some pc
    ∧ is_open self' pc
    ∧ match accept_remote type sdp with
      | Some e =>
          result = inl e
          ∧ heap self' !! pc = Some (mkPC false 1 None None [])
      | None =>
          match create_answer sdp with
          | inl e =>
              result = inl e
              ∧ heap self' !! pc = Some (mkPC false 1 (Some (type, sdp)) None [])
          | inr answer =>
              match accept_local answer with
              | inl e =>
                  result = inl e
                  ∧ heap self' !! pc = Some (mkPC false 1 (Some (type, sdp)) None [])
              | inr local =>
                  match open_channel "controls" with
                  | Some e =>
                      result = inl e
                      ∧ heap self' !! pc
                        = Some (mkPC false 1 (Some (type, sdp)) (Some local) [])
                  | None =>
                      result = inr {[ "type" := VStr "answer"; "sdp" := VStr local;
                                      "target" := VStr sender_id ]}
                      ∧ heap self' !! pc
                        = Some (mkPC false 1 (Some (type, sdp)) (Some local)
                                  ["controls"])
                  end
              end
          end
      end.
Proof.
  intros pc type sdp. subst pc type sdp.
  assert (Hnew : ∀ (o : RTCPeerConnection),
            (heap self ++ [o])%list !! length (heap self) = Some o).
  { intros o. rewrite lookup_app_r by lia. by rewrite Nat.sub_diag. }
  unfold handle_offer, create_peer_connection, setRemoteDescription,
    setLocalDescription, createDataChannel, localDescription_sdp, update_pc, is_open.
  destruct (accept_remote _ _) as [e|]; run_py; simpl;
    [|destruct (create_answer _) as [e|answer]; simpl;
      [|destruct (accept_local _) as [e|local]; simpl;
        [|destruct (open_channel _) as [e|]; simpl]]].
  all: rewrite ?list_lookup_alter_eq, ?Hnew; simpl.
  all: eexists _, _; (split; [reflexivity|]); simpl.
  all: rewrite ?list_lookup_alter_eq, ?Hnew, lookup_insert_eq; simpl.
  all: split; [done|]; split; [by eexists|]; done.
Qed.

End SessionFacts.

Lemma remove_peer_is_idempotent_witness :
  let first := snd (PeerManager.handle_offer Fixtures.accept_all Fixtures.fixed_answer
                      Fixtures.gathered Fixtures.open_any
                      "7" Fixtures.an_offer PeerManager.init) in
  ¬ PeerManager.is_open (snd (PeerManager.remove_peer "7" first)) 0.
Proof.
  intros first.
  destruct (remove_peer_is_idempotent first "7") as (self1 & E & _ & Hclosed & _).
  rewrite E. simpl. apply Hclosed. vm_compute. reflexivity.
Defined.

Lemma stop_closes_registered_connections_witness :
  let first := snd (PeerManager.handle_offer Fixtures.accept_all Fixtures.fixed_answer
                      Fixtures.gathered Fixtures.open_any
                      "7" Fixtures.an_offer PeerManager.init) in
  let second := snd (PeerManager.handle_offer Fixtures.accept_all Fixtures.fixed_answer
                       Fixtures.gathered Fixtures.open_any
                       "7" Fixtures.an_offer first) in
  ¬ PeerManager.is_open (snd (snd (Shutdown.stop (VideoTrack.init 30, second)))) 1.
Proof.
  intros first second.
  destruct (stop_closes_registered_connections (VideoTrack.init 30) second)
    as (t' & self' & E & _ & _ & Hclosed & _).
  rewrite E. simpl. apply (Hclosed "7"). vm_compute. reflexivity.
Defined.

(** After two offers from one client and a shutdown, the connection the
    second offer replaced is still open. *)
Example stop_leaves_replaced_connection_open :
  let first := snd (PeerManager.handle_offer Fixtures.accept_all Fixtures.fixed_answer
                      Fixtures.gathered Fixtures.open_any
                      "7" Fixtures.an_offer PeerManager.init) in
  let second := snd (PeerManager.handle_offer Fixtures.accept_all Fixtures.fixed_answer
                       Fixtures.gathered Fixtures.open_any
                       "7" Fixtures.an_offer first) in
  PeerManager.pc_closed
    <$> PeerManager.heap (snd (snd (Shutdown.stop (VideoTrack.init 30, second))))
  = [false; true].
Proof. vm_compute. reflexivity. Qed.

(** An engine that generates an answer and then refuses it as the
    local description: the offer is not answered, and the connection
    stays registered and open with the remote description only. *)
Example handle_offer_local_description_refused :
  let run := PeerManager.handle_offer Fixtures.accept_all Fixtures.fixed_answer
               Fixtures.refuse_local Fixtures.open_any
               "7" Fixtures.an_offer PeerManager.init in
  fst run = inl (ValueError "local description refused")
  ∧ PeerManager.peers (snd run) !! "7" = Some 0%nat
  ∧ PeerManager.heap (snd run)
    = [PeerManager.mkPC false 1 (Some (VStr "offer", VStr "v=0")) None []].
Proof. vm_compute. repeat split; reflexivity. Qed.

(** The answer that goes back carries the SDP of the connection's
    local description, which need not be the text [createAnswer]
    returned. *)
Example handle_offer_answers_with_local_description :
  let run := PeerManager.handle_offer Fixtures.accept_all Fixtures.fixed_answer
               Fixtures.gathered Fixtures.open_any
               "7" Fixtures.an_offer PeerManager.init in
  Fixtures.fixed_answer (VStr "v=0") = inr "v=0"
  ∧ (fst run = inr {[ "type" := VStr "answer";
                      "sdp" := VStr "v=0 a=end-of-candidates";
                      "target" := VStr "7" ]}).
Proof. split; vm_compute; reflexivity. Qed.

(** ** The data-channel handler *)

Section DataChannelFacts.
Import DataChannel.
Context {C S : Type}.
Variable control_handler : ControlHandler S.
Variable send : gmap string value → C → exc + C.
Variable json_loads : string → option string.

Lemma send_error_run (peer_id text : string) (h : DataChannelHandler C S) :
  ∃ h', send_error send peer_id text h = (inr tt, h')
        ∧ controllers h' = controllers h
        ∧ dom (channels h') = dom (channels h).
Proof.
  unfold send_error, send_to, try_except, Py.bind, get, put, raise, ret.
  destruct (channels h !! peer_id) as [ch|] eqn:Ec; [|by eexists].
  destruct (send _ ch) as [e|ch']; [by eexists|].
  eexists. split; [reflexivity|]. split; [done|]. simpl.
  rewrite dom_insert_L. apply (elem_of_dom_2 (D := gset string)) in Ec.
  apply set_eq. intros x. rewrite elem_of_union, elem_of_singleton.
  split; [intros [->|?]; done|by right].
Qed.

(** X29: [DataChannelHandler.handle_message] hands the decoded JSON
    value itself to [handle_command], so no controller is ever called:
    whatever the text, the handler returns without raising, the state
    behind the controllers is untouched, and when sending succeeds the
    answer to any JSON text is the [unknown] error response. *)
Theorem datachannel_never_applies_a_command
    (peer_id text : string) (h : DataChannelHandler C S) :
  ∃ h',
    handle_message control_handler send json_loads peer_id text h = (inr tt, h')
    ∧ controllers h' = controllers h
    ∧ dom (channels h') = dom (channels h)
    ∧ ∀ class_name channel channel',
        json_loads text = Some class_name →
        channels h !! peer_id = Some channel →
        send (Wire.to_dict (mkControlResponse "error" "unknown" "Unknown command type"))
             channel = inr channel' →
        channels h' = <[peer_id := channel']> (channels h).
Proof.
  unfold handle_message.
  destruct (json_loads text) as [class_name|].
  - unfold try_except at 1, Py.bind at 1, on_controllers, zoom.
    unfold handle_command, try_except at 1, apply_command, ret at 1.
    assert (Hh : mkHandler (channels h) (controllers h) = h) by (by destruct h).
    rewrite Hh.
    unfold send_to, Py.bind, get, put, raise, ret.
    destruct (channels h !! peer_id) as [ch|] eqn:Ec.
    + destruct (send _ ch) as [e|ch'] eqn:Es.
      * destruct (send_error_run peer_id (exc_text e) h) as (h' & E & Hc & Hd).
        exists h'. split; [exact E|]. split; [exact Hc|]. split; [exact Hd|].
        intros cls c1 c2 _ [= <-] Hs. congruence.
      * eexists. split; [reflexivity|]. split; [done|]. simpl. split.
        -- rewrite dom_insert_L. apply (elem_of_dom_2 (D := gset string)) in Ec.
           apply set_eq. intros x. rewrite elem_of_union, elem_of_singleton.
           split; [intros [->|?]; done|by right].
        -- intros cls c1 c2 _ [= <-] Hs. congruence.
    + exists h. split; [done|]. split; [done|]. split; [done|].
      intros cls c1 c2 _ [=].
  - destruct (send_error_run peer_id "Invalid JSON" h) as (h' & E & Hc & Hd).
    exists h'. split; [exact E|]. split; [exact Hc|]. split; [exact Hd|].
    intros cls c1 c2 [=].
Qed.

End DataChannelFacts.

(** ** The frame-rate counter *)

Section FpsCounterFacts.
Import FpsCounter.

Lemma deque_append_drop (n : nat) (times : list Q) (x : Q) :
  deque_append n (drop (length times - n) times) x
  = drop (length (times ++ [x])%list - n) (times ++ [x])%list.
Proof.
  unfold deque_append. rewrite length_drop, length_app. simpl.
  destruct (decide (length times ≤ n)%nat) as [Hle|Hgt].
  - replace (length times - n)%nat with 0%nat by lia. rewrite drop_0.
    f_equal. lia.
  - replace (length times - (length times - n) + 1 - n)%nat with 1%nat by lia.
    replace (length times + 1 - n)%nat with ((length times - n) + 1)%nat by lia.
    rewrite <- drop_drop. rewrite (drop_app_le times) by lia. done.
Qed.

Lemma fps_of_nonneg (ts : list Q) : (0 <= fps_of ts)%Q.
Proof.
  unfold fps_of. destruct ts as [|first [|second rest]]; try apply Qle_refl.
  destruct (Qlt_le_dec _ _) as [Hpos|_]; [|apply Qle_refl].
  apply Qle_shift_div_l; [exact Hpos|].
  rewrite Qmult_0_l. change 0%Q with (inject_Z 0). rewrite <- Zle_Qle.
  simpl length. lia.
Qed.

(** X30: after any number of ticks the counter holds exactly the last
    [window_size] of the times it was given, in order, and never more
    than [window_size] of them; the rate it reports is never negative,
    and it is zero while fewer than two times are held. *)
Theorem fps_counter_keeps_last_window (n : nat) (times : list Q) :
  let c := foldl (λ c now, tick now c) (init n) times in
  timestamps c = drop (length times - n) times
  ∧ (length (timestamps c) ≤ n)%nat
  ∧ window_size c = n
  ∧ (0 <= get_fps c)%Q
  ∧ ((length (timestamps c) < 2)%nat → get_fps c = 0%Q).
Proof.
  induction times as [|x times IH] using rev_ind; simpl.
  - split; [done|]. split; [lia|]. split; [done|]. split; [apply Qle_refl|done].
  - rewrite foldl_app. cbn [foldl].
    set (c0 := foldl _ (init n) times) in *.
    destruct IH as (Hts & _ & Hw & _).
    unfold tick, get_fps. cbn [timestamps window_size _last_fps].
    rewrite Hw, Hts, deque_append_drop.
    split; [done|]. split; [rewrite length_drop; lia|]. split; [done|].
    split; [apply fps_of_nonneg|].
    unfold fps_of.
    generalize (drop (length (times ++ [x])%list - n) (times ++ [x])%list).
    intros [|first [|second rest]] Hshort; try done.
    simpl in Hshort. lia.
Qed.

End FpsCounterFacts.

Lemma fps_counter_keeps_last_window_witness :
  FpsCounter.get_fps (foldl (λ c now, FpsCounter.tick now c) (FpsCounter.init 0) [1%Q; 2%Q])
  = 0%Q.
Proof.
  destruct (fps_counter_keeps_last_window 0 [1%Q; 2%Q]) as (_ & Hlen & _ & _ & Hzero).
  apply Hzero. simpl in Hlen |- *. lia.
Defined.

(** Three ticks half a second apart in a window of two: the counter
    keeps the last two times and reports two frames per second. *)
Example fps_counter_window_of_two :
  let c := foldl (λ c now, FpsCounter.tick now c) (FpsCounter.init 2)
                 [10%Q; (21 # 2)%Q; 11%Q] in
  FpsCounter.timestamps c = [(21 # 2)%Q; 11%Q]
  ∧ Qeq (FpsCounter.get_fps c) 2.
Proof. split; vm_compute; reflexivity. Qed.

(** A JSON object on the data channel: no controller is called and the
    peer is told the command is unknown. *)
Lemma datachannel_never_applies_a_command_witness :
  let text := "{}" in
  let after := snd (DataChannel.handle_message ChannelFixtures.counting_handler
                      ChannelFixtures.logging_send ChannelFixtures.always_dict
                      "7" text ChannelFixtures.one_peer) in
  DataChannel.controllers after = 0%nat
  ∧ DataChannel.channels after
    = {[ "7" := [Wire.to_dict (mkControlResponse "error" "unknown" "Unknown command type")] ]}.
Proof.
  intros text after.
  destruct (datachannel_never_applies_a_command ChannelFixtures.counting_handler
              ChannelFixtures.logging_send ChannelFixtures.always_dict
              "7" text ChannelFixtures.one_peer)
    as (h' & E & Hc & _ & Hsent).
  subst after. rewrite E. simpl. split; [exact Hc|].
  rewrite (Hsent "dict" [] _ eq_refl eq_refl eq_refl).
  vm_compute. reflexivity.
Defined.
